(** * Signature synchronisation of the Raspirus command line client

    A shallow embedding of [database_api.py] (class [HashAPI]) together
    with the properties of its synchronisation engine.

    Layout of the development:
    - [Py]      the Python builtins the module relies on ([int], the
                [05d] format, [str] of a bytes object, [str.replace],
                [str.startswith], iteration over a response body);
    - [Sqlite]  the [signatures] relation, its primary key and the
                transaction behaviour of the [sqlite3] connection;
    - the methods of [HashAPI], written in a state and exception monad
      over a world made of the connection, a request clock and an event
      log;
    - the theorems. *)

From Stdlib Require Import List Bool Arith ZArith NArith Lia.
From Stdlib Require Import Ascii String.
From Stdlib.Strings Require Import Byte.
From Stdlib Require Import DecimalString DecimalN DecimalPos OrderedTypeEx.
Import ListNotations.

Local Open Scope string_scope.
Local Open Scope Z_scope.

(* ================================================================= *)
(** ** Python builtins *)

Module Py.

(** Characters that cannot be written inside a string literal here. *)
Definition dquote : ascii := "034"%char.
Definition squote : ascii := "039"%char.
Definition backslash : ascii := "092"%char.

(** *** [int(s)] on a [str]

    White space around the literal is skipped; then comes an optional
    sign and, right after it, decimal digits, where one underscore may
    stand between two digits.  Anything else is a [ValueError] ([None]).
    The characters of a [string] are the code points below 256; the
    white space among them is the one [int] skips (tab to carriage
    return, space, U+0085, U+00A0).  The limit on the number of digits
    that CPython applies from version 3.11 on is not part of the
    model. *)

Definition digit_of_ascii (c : ascii) : option Z :=
  let n := Z.of_N (N_of_ascii c) in
  if (48 <=? n) && (n <=? 57) then Some (n - 48) else None.

Definition is_space (c : ascii) : bool :=
  let n := Z.of_N (N_of_ascii c) in
  ((9 <=? n) && (n <=? 13)) || (n =? 32) || (n =? 133) || (n =? 160).

Fixpoint lstrip (s : string) : string :=
  match s with
  | EmptyString => EmptyString
  | String c t => if is_space c then lstrip t else s
  end.

Fixpoint all_space (s : string) : bool :=
  match s with
  | EmptyString => true
  | String c t => is_space c && all_space t
  end.

(** The rest of a literal after its first digit: [acc] is the value read
    so far, [after_digit] tells whether the last character read was a
    digit (and not an underscore). *)
Fixpoint digits_tail (acc : Z) (after_digit : bool) (s : string) : option Z :=
  match s with
  | EmptyString => if after_digit then Some acc else None
  | String c t =>
      match digit_of_ascii c with
      | Some d => digits_tail (10 * acc + d) true t
      | None =>
          if Ascii.eqb c "_"
          then (if after_digit then digits_tail acc false t else None)
          else if after_digit && all_space (String c t) then Some acc
          else None
      end
  end.

Definition unsigned_literal (s : string) : option Z :=
  match s with
  | EmptyString => None
  | String c t =>
      match digit_of_ascii c with
      | Some d => digits_tail d true t
      | None => None
      end
  end.

Definition int (s : string) : option Z :=
  match lstrip s with
  | String "-" t => option_map Z.opp (unsigned_literal t)
  | String "+" t => unsigned_literal t
  | s' => unsigned_literal s'
  end.

(** The value of a string made of digits only, read from the left with
    [acc] as the value so far. *)
Fixpoint digits_value (acc : Z) (s : string) : option Z :=
  match s with
  | EmptyString => Some acc
  | String c t =>
      match digit_of_ascii c with
      | Some d => digits_value (10 * acc + d) t
      | None => None
      end
  end.

Definition unsigned_value (s : string) : option Z :=
  match s with
  | EmptyString => None
  | _ => digits_value 0 s
  end.

(** *** [f'{n:05d}']

    Decimal digits of [n], sign aware, padded with zeros on the left to
    a total width of five; wider numbers are printed in full. *)

Definition digits (n : Z) : string :=
  NilEmpty.string_of_uint (N.to_uint (Z.to_N n)).

Fixpoint zeros (k : nat) : string :=
  match k with
  | O => EmptyString
  | S k' => String "0" (zeros k')
  end.

Definition zfill (width : nat) (s : string) : string :=
  zeros (width - String.length s) ++ s.

Definition format_05d (n : Z) : string :=
  if n <? 0 then String "-" (zfill 4 (digits (- n)))
  else zfill 5 (digits n).

(** *** [str(b)] for a [bytes] object [b]

    The printable representation: the letter b, a quote, the escaped
    content, the quote.  The quote is the apostrophe unless the content
    holds an apostrophe and no double quote. *)

Definition byte_is (c : ascii) (b : byte) : bool :=
  Ascii.eqb (ascii_of_byte b) c.

Definition hex_digit (n : N) : ascii :=
  if (n <? 10)%N then ascii_of_N (48 + n) else ascii_of_N (87 + n).

Definition repr_quote (b : list byte) : ascii :=
  if existsb (byte_is squote) b && negb (existsb (byte_is dquote) b)
  then dquote else squote.

Definition repr_byte (quote : ascii) (b : byte) : string :=
  let c := ascii_of_byte b in
  let n := Byte.to_N b in
  if Ascii.eqb c quote || Ascii.eqb c backslash
  then String backslash (String c EmptyString)
  else if (n =? 9)%N then String backslash "t"
  else if (n =? 10)%N then String backslash "n"
  else if (n =? 13)%N then String backslash "r"
  else if (n <? 32)%N || (127 <=? n)%N
  then String backslash
         (String "x" (String (hex_digit (n / 16)) (String (hex_digit (n mod 16)) EmptyString)))
  else String c EmptyString.

Definition str_of_bytes (b : list byte) : string :=
  let q := repr_quote b in
  String "b" (String q (String.concat EmptyString (map (repr_byte q) b)
                          ++ String q EmptyString)).

(** *** [s.replace(old, '')]

    Every occurrence of [old], found from left to right without overlap,
    is dropped.  [skip] counts the characters of a match still to be
    dropped. *)

Fixpoint remove_from (old : string) (skip : nat) (s : string) : string :=
  match s with
  | EmptyString => EmptyString
  | String c t =>
      match skip with
      | S k => remove_from old k t
      | O =>
          if String.prefix old (String c t)
          then remove_from old (String.length old - 1) t
          else String c (remove_from old 0 t)
      end
  end.

Definition remove_all (old s : string) : string := remove_from old 0 s.

(** *** [s.startswith(p)] *)

Definition startswith (p s : string) : bool := String.prefix p s.

(** *** [for line in file]

    The body of a response is cut after every line feed; the line feed
    stays at the end of its line and a last line without one is
    delivered as it is. *)

Definition is_newline (b : byte) : bool := (Byte.to_N b =? 10)%N.

Fixpoint lines_from (cur : list byte) (body : list byte) : list (list byte) :=
  match body with
  | [] => match cur with [] => [] | _ => [rev cur] end
  | b :: t =>
      if is_newline b then rev (b :: cur) :: lines_from [] t
      else lines_from (b :: cur) t
  end.

Definition readlines (body : list byte) : list (list byte) := lines_from [] body.

End Py.

(* ================================================================= *)
(** ** The [signatures] relation and its connection *)

Module Sqlite.

(** A row of [signatures(hash varchar(32) PRIMARY KEY, file_nr varchar(5))].
    Every writer of the module binds a [str] to [hash]; [file_nr] is a
    nullable text column ([None] is SQL NULL).  The declared lengths are
    not enforced by the engine. *)
Definition row : Type := string * option string.

Definition hash_of (r : row) : string := fst r.
Definition file_nr_of (r : row) : option string := snd r.

Definition hashes (t : list row) : list string := map hash_of t.

(** What the connection sees ([table], pending changes included) and
    what the last commit made durable ([committed]). *)
Record connection : Type := mkConn {
  table : list row;
  committed : list row
}.

Definition empty_db : connection := mkConn [] [].

Inductive sql_error : Type :=
| IntegrityError.     (* UNIQUE constraint failed: signatures.hash *)

Definition has_hash (h : string) (t : list row) : bool :=
  existsb (fun r => String.eqb (hash_of r) h) t.

(** [executemany('INSERT INTO signatures(hash, file_nr) VALUES(?, ?)', params)]:
    one INSERT per parameter tuple inside the open transaction.  A
    statement that violates the primary key is backed out and raises;
    the statements before it stay in the transaction, the tuples after
    it are never looked at. *)
Fixpoint executemany (params : list row) (t : list row)
  : list row * option sql_error :=
  match params with
  | [] => (t, None)
  | r :: rest =>
      if has_hash (hash_of r) t then (t, Some IntegrityError)
      else executemany rest (t ++ [r])
  end.

Definition commit (c : connection) : connection :=
  mkConn (table c) (table c).

(** Order of the values of a text column: NULL first, then text under
    the BINARY collation (byte by byte, a proper prefix first). *)
Definition value_leb (a b : option string) : bool :=
  match a, b with
  | None, _ => true
  | Some _, None => false
  | Some x, Some y => String.leb x y
  end.

Definition greater (m v : option string) : option string :=
  if value_leb m v then v else m.

(** [SELECT file_nr FROM signatures ORDER BY file_nr DESC LIMIT 1]
    followed by [fetchone()]: no row, or the one-column row. *)
Definition select_top_file_nr (t : list row) : option (option string) :=
  match t with
  | [] => None
  | r :: rest => Some (fold_left greater (map file_nr_of rest) (file_nr_of r))
  end.

(** [DELETE FROM signatures WHERE hash = ?] *)
Definition delete_hash (h : string) (t : list row) : list row :=
  filter (fun r => negb (String.eqb (hash_of r) h)) t.

End Sqlite.

Import Sqlite.

(* ================================================================= *)
(** ** The world of a run *)

(** What [urlopen] does for a request.  A response is delivered whole;
    a connection that breaks while the body is read is not modelled. *)
Inductive response : Type :=
| Found (body : list byte)       (* a response object, iterated by lines *)
| HttpStatus (code : Z)          (* raises HTTPError with that code *)
| Unreachable.                   (* raises URLError *)

(** The remote side: the answer to the request number [clock] of the
    process when it asks for [url]. *)
Definition catalog : Type := nat -> string -> response.

Inductive exn : Type :=
| HTTPError (code : Z)
| URLError
| ValueError
| Sqlite3Error.

Inductive event : Type :=
| EvFetch (url : string) (r : response)    (* a call of urlopen and its answer *)
| EvInsert (batch : list row).             (* a call of insert_hashes *)

Record world : Type := mkWorld {
  conn : connection;
  clock : nat;
  log : list event
}.

(** Result of a computation: a value, a Python exception on its way up,
    or a loop that used up its fuel. *)
Inductive outcome (A : Type) : Type :=
| Ret (a : A)
| Raise (e : exn)
| Diverge.

Arguments Ret {A} a.
Arguments Raise {A} e.
Arguments Diverge {A}.

Definition M (A : Type) : Type := world -> outcome A * world.

Definition ret {A} (a : A) : M A := fun w => (Ret a, w).

Definition bind {A B} (m : M A) (k : A -> M B) : M B :=
  fun w =>
    match m w with
    | (Ret a, w') => k a w'
    | (Raise e, w') => (Raise e, w')
    | (Diverge, w') => (Diverge, w')
    end.

Definition raise {A} (e : exn) : M A := fun w => (Raise e, w).

Definition diverge {A} : M A := fun w => (Diverge, w).

(** [try: m  except ...: handler]; a handler answering [None] does not
    match the exception, which then keeps going up. *)
Definition try_except {A} (m : M A) (handler : exn -> option (M A)) : M A :=
  fun w =>
    match m w with
    | (Raise e, w') =>
        match handler e with
        | Some k => k w'
        | None => (Raise e, w')
        end
    | other => other
    end.

Declare Scope py_scope.
Delimit Scope py_scope with py.
Notation "x <- m ;; k" := (bind m (fun x => k))
  (at level 61, m at next level, right associativity) : py_scope.
Notation "m ;;; k" := (bind m (fun _ => k))
  (at level 61, right associativity) : py_scope.
Local Open Scope py_scope.

Definition get_conn : M connection := fun w => (Ret (conn w), w).

Definition set_conn (c : connection) : M unit :=
  fun w => (Ret tt, mkWorld c (clock w) (log w)).

Definition emit (e : event) : M unit :=
  fun w => (Ret tt, mkWorld (conn w) (clock w) (log w ++ [e])).

(** [int(s)], raising ValueError. *)
Definition int_of (s : string) : M Z :=
  match Py.int s with
  | Some n => ret n
  | None => raise ValueError
  end.

(** The value a Python function hands back where a truth value is
    expected: [True], [False], or [None] when it falls off its end. *)
Inductive pyvalue : Type := PyTrue | PyFalse | PyNone.

Definition py_not (v : pyvalue) : bool :=
  match v with
  | PyTrue => false
  | PyFalse | PyNone => true
  end.

(** [str(v)] for a value read from the [file_nr] column. *)
Definition py_str (v : option string) : string :=
  match v with
  | Some s => s
  | None => "None"
  end.

(* ================================================================= *)
(** ** class HashAPI *)

Definition shard_filename (file_nr : string) : string :=
  "VirusShare_" ++ file_nr ++ ".md5".

Definition shard_url (file_nr : string) : string :=
  "https://virusshare.com/hashfiles/" ++ shard_filename file_nr.

(** The body of the [for line in file] loop of [download_files]. *)
Definition line_text (line : list byte) : string :=
  Py.remove_all (String Py.backslash (String "n" (String Py.squote EmptyString)))
    (Py.remove_all (String "b" (String Py.squote EmptyString)) (Py.str_of_bytes line)).

Fixpoint collect_hashes (lines : list (list byte)) (file_nr : string) : list row :=
  match lines with
  | [] => []
  | line :: rest =>
      let line_n := line_text line in
      if negb (Py.startswith "#" line_n)
      then (line_n, Some file_nr) :: collect_hashes rest file_nr
      else collect_hashes rest file_nr
  end.

Definition shard_records (body : list byte) (file_nr : string) : list row :=
  collect_hashes (Py.readlines body) file_nr.

Section HashAPI.

Variable remote : catalog.

(** [urlopen(url)] *)
Definition urlopen (url : string) : M (list byte) :=
  fun w =>
    let r := remote (clock w) url in
    let w' := mkWorld (conn w) (S (clock w)) (log w ++ [EvFetch url r]) in
    match r with
    | Found body => (Ret body, w')
    | HttpStatus code => (Raise (HTTPError code), w')
    | Unreachable => (Raise URLError, w')
    end.

(** [CREATE TABLE IF NOT EXISTS] leaves the rows alone; the commit that
    follows ends the open transaction. *)
Definition init_table : M unit :=
  c <- get_conn ;; set_conn (commit c).

Definition insert_hash (hash_str : string) (file_nr : option string) : M unit :=
  c <- get_conn ;;
  match executemany [(hash_str, file_nr)] (table c) with
  | (t, None) => set_conn (commit (mkConn t (committed c)))
  | (t, Some _) => set_conn (mkConn t (committed c))   (* printed *)
  end.

Definition insert_hashes (hashes : list row) : M unit :=
  emit (EvInsert hashes) ;;;
  c <- get_conn ;;
  match executemany hashes (table c) with
  | (t, None) => set_conn (commit (mkConn t (committed c)))
  | (t, Some _) => set_conn (mkConn t (committed c))   (* printed *)
  end.

Definition hash_exists (hash_str : string) : M bool :=
  c <- get_conn ;; ret (has_hash hash_str (table c)).

Definition get_latest_file_nr : M string :=
  c <- get_conn ;;
  match select_top_file_nr (table c) with
  | Some v => ret (py_str v)
  | None => ret "00000"               (* TypeError: fetchone() gave None *)
  end.

Definition count_hashes : M string :=
  c <- get_conn ;; ret (Py.digits (Z.of_nat (List.length (table c)))).

Definition remove_hash (hash_str : string) : M unit :=
  c <- get_conn ;; set_conn (mkConn (delete_hash hash_str (table c)) (committed c)).

Definition _check_latest_file (file_nr : string) : M pyvalue :=
  n <- int_of file_nr ;;
  urlopen (shard_url (Py.format_05d (n + 1))) ;;;
  ret PyFalse.

Definition db_is_updated : M pyvalue :=
  file_nr <- get_latest_file_nr ;;
  if String.eqb file_nr "None" then ret PyFalse
  else
    try_except (_check_latest_file file_nr)
      (fun e =>
         match e with
         | HTTPError code =>
             if code =? 404 then Some (ret PyTrue) else Some (ret PyNone)
         | URLError => Some (ret PyTrue)
         | ValueError | Sqlite3Error => None
         end).

(** One turn of [while True]: [Some next] goes round again with the next
    file number, [None] is [break]. *)
Definition sync_step (file_nr : string) : M (option string) :=
  try_except
    (file <- urlopen (shard_url file_nr) ;;
     insert_hashes (shard_records file file_nr) ;;;
     n <- int_of file_nr ;;
     ret (Some (Py.format_05d (n + 1))))
    (fun e =>
       match e with
       | HTTPError _ => Some (ret None)
       | URLError | ValueError | Sqlite3Error => None
       end).

Fixpoint sync_loop (fuel : nat) (file_nr : string) : M unit :=
  match fuel with
  | O => diverge
  | S fuel' =>
      step <- sync_step file_nr ;;
      match step with
      | Some next => sync_loop fuel' next
      | None => ret tt
      end
  end.

Definition download_files (fuel : nat) : M unit :=
  updated <- db_is_updated ;;
  if py_not updated then
    file_nr <- get_latest_file_nr ;;
    sync_loop fuel file_nr
  else ret tt.

Definition update_db (fuel : nat) : M unit :=
  download_files fuel ;;;
  count_hashes ;;;
  ret tt.

(** [HashAPI(db_location)] on an open connection. *)
Definition hash_api_init (fuel : nat) : M unit :=
  init_table ;;; update_db fuel.

(** [updater()] of main.py: the constructor runs a synchronisation, a
    second one follows at once, and the count is read to be printed;
    the function itself hands back nothing. *)
Definition updater (fuel : nat) : M unit :=
  hash_api_init fuel ;;; update_db fuel ;;; count_hashes ;;; ret tt.

End HashAPI.

(* ================================================================= *)
(** ** Notions used by the statements *)

(** The cursor: what [get_latest_file_nr] answers on a table. *)
Definition latest_file_nr (t : list row) : string :=
  match select_top_file_nr t with
  | Some v => py_str v
  | None => "00000"
  end.

(** The connection after [insert_hashes batch]. *)
Definition after_insert (batch : list row) (c : connection) : connection :=
  match executemany batch (table c) with
  | (t, None) => mkConn t t
  | (t, Some _) => mkConn t (committed c)
  end.

(** Events a computation added to the log. *)
Definition run_events (w w' : world) : list event :=
  skipn (List.length (log w)) (log w').

Fixpoint fetched_urls (evs : list event) : list string :=
  match evs with
  | [] => []
  | EvFetch url _ :: rest => url :: fetched_urls rest
  | EvInsert _ :: rest => fetched_urls rest
  end.

Fixpoint inserted_batches (evs : list event) : list (list row) :=
  match evs with
  | [] => []
  | EvFetch _ _ :: rest => inserted_batches rest
  | EvInsert b :: rest => b :: inserted_batches rest
  end.

(** The file numbers [n], [n+1], ... ([k] of them) as the loop formats
    them. *)
Fixpoint indices_from (n : Z) (k : nat) : list string :=
  match k with
  | O => []
  | S k' => Py.format_05d n :: indices_from (n + 1) k'
  end.

(** A catalog with nothing to offer beyond index [n]. *)
Definition publishes_nothing_beyond (remote : catalog) (n : Z) : Prop :=
  forall t i, n < i -> remote t (shard_url (Py.format_05d i)) = HttpStatus 404.

(** Shard indices of the data model: five decimal digits. *)
Definition is_digit (c : ascii) : bool :=
  match Py.digit_of_ascii c with Some _ => true | None => false end.

Fixpoint all_digits (s : string) : bool :=
  match s with
  | EmptyString => true
  | String c t => is_digit c && all_digits t
  end.

Definition is_shard_index (s : string) : bool :=
  Nat.eqb (String.length s) 5 && all_digits s.

Definition indexed_row (r : row) : bool :=
  match file_nr_of r with
  | Some s => is_shard_index s
  | None => false
  end.

(** Rows whose file number [int] reads as a number that is not negative. *)
Definition numbered_row (r : row) : bool :=
  match file_nr_of r with
  | Some s => match Py.int s with Some n => 0 <=? n | None => false end
  | None => false
  end.

Definition count_hash (h : string) (t : list row) : nat :=
  List.length (filter (fun r => String.eqb (hash_of r) h) t).

(** Bytes that [str] of a bytes object prints as themselves and that
    cannot take part in a quote or in an escape: printable ASCII other
    than the apostrophe and the backslash. *)
Definition plain_byte (b : byte) : bool :=
  let n := Byte.to_N b in
  (32 <=? n)%N && (n <=? 126)%N && negb (n =? 39)%N && negb (n =? 92)%N.

Definition text_of (l : list byte) : string := string_of_list_byte l.

Definition newline : byte := x0a.

(** A body made of the given lines, each one closed by a line feed. *)
Definition body_of_lines (ls : list (list byte)) : list byte :=
  List.concat (map (fun l => (l ++ [newline])%list) ls).

(** Calls a client of the class can make on an open connection. *)
Inductive call : Type :=
| CallInitTable
| CallInsertHash (hash_str : string) (file_nr : option string)
| CallInsertHashes (hashes : list row)
| CallRemoveHash (hash_str : string)
| CallDownloadFiles (remote : catalog) (fuel : nat)
| CallUpdateDb (remote : catalog) (fuel : nat).

Definition run_call (c : call) : M unit :=
  match c with
  | CallInitTable => init_table
  | CallInsertHash h f => insert_hash h f
  | CallInsertHashes b => insert_hashes b
  | CallRemoveHash h => remove_hash h
  | CallDownloadFiles remote fuel => download_files remote fuel
  | CallUpdateDb remote fuel => update_db remote fuel
  end.

(** Calls that write rows only through the synchronisation loop. *)
Definition sync_call (c : call) : bool :=
  match c with
  | CallInsertHash _ _ | CallInsertHashes _ => false
  | _ => true
  end.

(** Worlds reached from a fresh database by calls that satisfy [allowed]. *)
Inductive reachable_by (allowed : call -> bool) : world -> Prop :=
| reach_fresh : forall clk lg, reachable_by allowed (mkWorld empty_db clk lg)
| reach_call : forall w c out w',
    reachable_by allowed w ->
    allowed c = true ->
    run_call c w = (out, w') ->
    reachable_by allowed w'.

Definition reachable : world -> Prop := reachable_by (fun _ => true).
Definition sync_reachable : world -> Prop := reachable_by sync_call.

(** The runs of the [while True] loop of [download_files], as a relation
    between the request clock and file number it starts from, the events
    it logs and the way it ends. *)
Inductive loop_trace (remote : catalog)
  : nat -> string -> list event -> outcome unit -> Prop :=
| trace_out_of_fuel : forall t f,
    loop_trace remote t f [] Diverge
| trace_break : forall t f code,
    remote t (shard_url f) = HttpStatus code ->
    loop_trace remote t f [EvFetch (shard_url f) (HttpStatus code)] (Ret tt)
| trace_unreachable : forall t f,
    remote t (shard_url f) = Unreachable ->
    loop_trace remote t f [EvFetch (shard_url f) Unreachable] (Raise URLError)
| trace_bad_number : forall t f body,
    remote t (shard_url f) = Found body ->
    Py.int f = None ->
    loop_trace remote t f
      [EvFetch (shard_url f) (Found body); EvInsert (shard_records body f)]
      (Raise ValueError)
| trace_next : forall t f body n evs out,
    remote t (shard_url f) = Found body ->
    Py.int f = Some n ->
    loop_trace remote (S t) (Py.format_05d (n + 1)) evs out ->
    loop_trace remote t f
      (EvFetch (shard_url f) (Found body)
         :: EvInsert (shard_records body f) :: evs)
      out.

(** The links the loop asks for when it starts at [cursor], whose number
    is [n], and goes round [k] times. *)
Definition loop_urls (cursor : string) (n : Z) (k : nat) : list string :=
  match k with
  | O => []
  | S k' => shard_url cursor :: map shard_url (indices_from (n + 1) k')
  end.

(* ================================================================= *)
(** ** Sample inputs *)

Definition fresh_world : world := mkWorld empty_db 0 [].

Definition stored (t : list row) : world := mkWorld (mkConn t t) 0 [].

Definition lines (ls : list string) : list byte :=
  body_of_lines (map list_byte_of_string ls).

(** Shards 00003 and 00004 are published, nothing else. *)
Definition catalog_3_4 : catalog :=
  fun _ url =>
    if String.eqb url (shard_url "00003") then Found (lines ["aa"])
    else if String.eqb url (shard_url "00004") then Found (lines ["bb"])
    else HttpStatus 404.

(** Shards 00000 and 00001 are published and share the hash h1. *)
Definition catalog_0_1 : catalog :=
  fun _ url =>
    if String.eqb url (shard_url "00000") then Found (lines ["# list"; "h1"; "h2"])
    else if String.eqb url (shard_url "00001") then Found (lines ["h3"; "h1"; "h4"])
    else HttpStatus 404.

(** The first request meets a server error; afterwards shard 00000 is
    there and nothing else. *)
Definition catalog_error_first : catalog :=
  fun t url =>
    match t with
    | O => HttpStatus 500
    | S _ =>
        if String.eqb url (shard_url "00000") then Found (lines ["h1"])
        else HttpStatus 404
    end.

(* ================================================================= *)
(** ** Statements of the specification that the code does not meet *)

(** The loop begins one past the cursor: after a probe that found the
    next shard, the run asks for the probe and then for the indices
    cursor+1, cursor+2, ... and nothing else. *)
Definition loop_starts_after_cursor
  (remote : catalog) (fuel : nat) (w : world) : Prop :=
  forall n body,
    Py.int (latest_file_nr (table (conn w))) = Some n ->
    remote (clock w) (shard_url (Py.format_05d (n + 1))) = Found body ->
    exists k,
      fetched_urls (run_events w (snd (download_files remote fuel w)))
      = shard_url (Py.format_05d (n + 1))
          :: map shard_url (indices_from (n + 1) k).


(** A duplicate in a batch is passed over and the other records of the
    batch are inserted. *)
Definition duplicates_ignored (batch : list row) (w : world) : Prop :=
  let w' := snd (insert_hashes batch w) in
  forall r, In r batch ->
    has_hash (hash_of r) (table (conn w')) = true.

(** The hash lines of a shard in the words of the specification: the
    lines without their line feed, those that are empty or begin with
    the comment marker left out. *)
Definition chomp (line : list byte) : list byte :=
  match rev line with
  | b :: r => if Py.is_newline b then rev r else line
  | [] => line
  end.

Definition spec_hash_lines (body : list byte) : list string :=
  filter (fun s => negb (String.eqb s EmptyString) && negb (Py.startswith "#" s))
    (map (fun l => text_of (chomp l)) (Py.readlines body)).

Definition parsed_as_specified (body : list byte) (file_nr : string) : Prop :=
  map hash_of (shard_records body file_nr) = spec_hash_lines body.

(** After a probe that failed with an HTTP status other than 404 the run
    does nothing more: one request, no insert. *)
Definition probe_failure_is_idle (remote : catalog) (fuel : nat) (w : world) : Prop :=
  let w' := snd (download_files remote fuel w) in
  forall n code,
    Py.int (latest_file_nr (table (conn w))) = Some n ->
    remote (clock w) (shard_url (Py.format_05d (n + 1))) = HttpStatus code ->
    code <> 404 ->
    List.length (fetched_urls (run_events w w')) = 1%nat
    /\ inserted_batches (run_events w w') = [].

(** Strings free of apostrophes and backslashes. *)
Fixpoint plain_text (s : string) : bool :=
  match s with
  | EmptyString => true
  | String c t =>
      negb (Ascii.eqb c Py.squote) && negb (Ascii.eqb c Py.backslash)
      && plain_text t
  end.

(** The primary key, on what the connection sees and on what is
    committed. *)
Definition unique_hashes (c : connection) : Prop :=
  NoDup (hashes (table c)) /\ NoDup (hashes (committed c)).

(** Every visible row carries a file number that reads as a number. *)
Definition numbered (c : connection) : Prop :=
  forallb numbered_row (table c) = true.

(** File numbers that read as a number that is not negative. *)
Definition is_number (s : string) : Prop :=
  exists n, Py.int s = Some n /\ 0 <= n.

Definition three_rows : list row :=
  [("h1", Some "00000"); ("h5", Some "00002"); ("h3", Some "00001")].

(** The comparison of the cursor with the text None in [db_is_updated]
    never holds. *)
Definition none_check_is_dead (w : world) : Prop :=
  String.eqb (latest_file_nr (table (conn w))) "None" = false.

(* ================================================================= *)
(** ** Notions used by the further properties *)

(** The rows a run stores when it meets the bodies of the shards
    [n], [n+1], ... in turn and every hash is new. *)
Fixpoint ingest (n : Z) (bodies : list (list byte)) : list row :=
  match bodies with
  | [] => []
  | body :: rest =>
      (shard_records body (Py.format_05d n) ++ ingest (n + 1) rest)%list
  end.

(** [k] numbers from [n] on are all printed by the format as a shard
    index of five digits. *)
Fixpoint five_digits_from (n : Z) (k : nat) : bool :=
  match k with
  | O => true
  | S k' => is_shard_index (Py.format_05d n) && five_digits_from (n + 1) k'
  end.

(** Shards 00000 and 00001 are published and share no hash. *)
Definition catalog_clean : catalog :=
  fun _ url =>
    if String.eqb url (shard_url "00000") then Found (lines ["h1"; "h2"])
    else if String.eqb url (shard_url "00001") then Found (lines ["h3"])
    else HttpStatus 404.

(** Shard 00000 is published alone. *)
Definition catalog_only_first : catalog :=
  fun _ url =>
    if String.eqb url (shard_url "00000") then Found (lines ["h1"; "h2"])
    else HttpStatus 404.

(** No network. *)
Definition catalog_offline : catalog := fun _ _ => Unreachable.

(** The network goes away after the first answer. *)
Definition catalog_drops : catalog :=
  fun t _ =>
    match t with
    | O => Found (lines ["h9"])
    | S _ => Unreachable
    end.

(** Shard 00003 is published, with a hash that comes before the stored
    one; every other request is answered with 404 the first time and
    with a server error afterwards. *)
Definition catalog_error_later : catalog :=
  fun t url =>
    if String.eqb url (shard_url "00003") then Found (lines ["bb"; "aa"])
    else match t with
         | O => HttpStatus 404
         | S _ => HttpStatus 500
         end.

(** A catalog that has no shard at any index beyond [n]. *)
Definition publishes_no_shard_beyond (remote : catalog) (n : Z) : Prop :=
  forall t i body, n < i -> remote t (shard_url (Py.format_05d i)) <> Found body.

(** Idempotence in the words of the specification: after a completed
    run, with no shard published beyond the cursor, a second run inserts
    nothing and leaves the connection as it was. *)
Definition second_run_idle_as_claimed
  (remote : catalog) (fuel : nat) (w0 : world) : Prop :=
  let w1 := snd (update_db remote fuel w0) in
  let w2 := snd (update_db remote fuel w1) in
  forall n,
    fst (update_db remote fuel w0) = Ret tt ->
    Py.int (latest_file_nr (table (conn w1))) = Some n ->
    publishes_no_shard_beyond remote n ->
    inserted_batches (run_events w1 w2) = [] /\ conn w2 = conn w1.

(** The answer on an empty table is a value of its own: no table with
    rows gets it. *)
Definition sentinel_is_distinguished : Prop :=
  forall t, t <> [] -> latest_file_nr t <> latest_file_nr [].

(* ================================================================= *)
(** ** Decimal file numbers *)





Lemma digit_of_ascii_range c d :
  Py.digit_of_ascii c = Some d -> 0 <= d <= 9.
Proof.
  unfold Py.digit_of_ascii.
  destruct (_ && _) eqn:E; [|discriminate].
  intros [= <-]. apply andb_true_iff in E. lia.
Qed.

Lemma all_digits_value s :
  all_digits s = true ->
  exists v, 0 <= v < 10 ^ Z.of_nat (String.length s) /\
            forall acc, Py.digits_value acc s
                        = Some (acc * 10 ^ Z.of_nat (String.length s) + v).
Proof.
  induction s as [|c t IH]; intros H.
  - exists 0. split; [simpl; lia|]. intros acc. simpl. f_equal. lia.
  - cbn [all_digits] in H. apply andb_true_iff in H as [Hc Ht].
    destruct (IH Ht) as (v & Hv & Hacc).
    unfold is_digit in Hc.
    destruct (Py.digit_of_ascii c) as [d|] eqn:Ed; [|discriminate].
    pose proof (digit_of_ascii_range _ _ Ed) as Hd.
    cbn [String.length].
    rewrite Nat2Z.inj_succ, Z.pow_succ_r by lia.
    exists (d * 10 ^ Z.of_nat (String.length t) + v). split; [nia|].
    intros acc. cbn [Py.digits_value]. rewrite Ed, Hacc. f_equal. ring.
Qed.

Lemma digits_value_all_digits s : forall acc v,
  Py.digits_value acc s = Some v -> all_digits s = true.
Proof.
  induction s as [|c t IH]; intros acc v H; [reflexivity|].
  cbn [Py.digits_value all_digits] in *. unfold is_digit.
  destruct (Py.digit_of_ascii c); [|discriminate].
  simpl. eauto.
Qed.

Lemma digits_value_acc_pos d : forall acc,
  Py.digits_value (Z.pos acc) (NilEmpty.string_of_uint d)
  = Some (Z.pos (Pos.of_uint_acc d acc)).
Proof.
  induction d; intros acc; cbn [NilEmpty.string_of_uint Pos.of_uint_acc];
    [reflexivity| ..];
    cbn [Py.digits_value].
  all: set (x := Py.digit_of_ascii _); vm_compute in x; subst x; cbv iota beta.
  all: rewrite <- IHd; f_equal; lia.
Qed.

Lemma digits_value_of_uint d :
  Py.digits_value 0 (NilEmpty.string_of_uint d) = Some (Z.of_N (Pos.of_uint d)).
Proof.
  induction d; cbn [NilEmpty.string_of_uint Pos.of_uint]; [reflexivity| ..];
    cbn [Py.digits_value];
    set (x := Py.digit_of_ascii _); vm_compute in x; subst x; cbv iota beta.
  - exact IHd.
  - apply (digits_value_acc_pos d 1).
  - apply (digits_value_acc_pos d 2).
  - apply (digits_value_acc_pos d 3).
  - apply (digits_value_acc_pos d 4).
  - apply (digits_value_acc_pos d 5).
  - apply (digits_value_acc_pos d 6).
  - apply (digits_value_acc_pos d 7).
  - apply (digits_value_acc_pos d 8).
  - apply (digits_value_acc_pos d 9).
Qed.

Lemma digits_value_digits n :
  0 <= n -> Py.digits_value 0 (Py.digits n) = Some n.
Proof.
  intros Hn. unfold Py.digits. rewrite digits_value_of_uint.
  change (Pos.of_uint ?d) with (N.of_uint d).
  rewrite DecimalN.Unsigned.of_to. f_equal. lia.
Qed.

Lemma digits_value_zeros k s acc :
  acc = 0 -> Py.digits_value acc (Py.zeros k ++ s) = Py.digits_value 0 s.
Proof.
  intros ->. induction k as [|k IH]; [reflexivity|].
  cbn [Py.zeros String.append Py.digits_value].
  change (Py.digit_of_ascii "0") with (Some 0). exact IH.
Qed.

Lemma digits_nonempty n : Py.digits n <> EmptyString.
Proof.
  unfold Py.digits. destruct (Z.to_N n) as [|p]; [discriminate|].
  cbn [N.to_uint]. pose proof (DecimalPos.Unsigned.to_uint_nonnil p) as H.
  destruct (Pos.to_uint p); [congruence| discriminate ..].
Qed.

Lemma zfill_nonempty k s : s <> EmptyString -> Py.zfill k s <> EmptyString.
Proof.
  unfold Py.zfill. destruct (Py.zeros _); [auto|discriminate].
Qed.

Lemma unsigned_value_zfill k n :
  0 <= n -> Py.unsigned_value (Py.zfill k (Py.digits n)) = Some n.
Proof.
  intros Hn. unfold Py.unsigned_value.
  pose proof (zfill_nonempty k _ (digits_nonempty n)) as Hne.
  destruct (Py.zfill k (Py.digits n)) eqn:E; [congruence|].
  rewrite <- E. unfold Py.zfill. rewrite digits_value_zeros by reflexivity.
  now apply digits_value_digits.
Qed.

Lemma digit_is_not_space c d :
  Py.digit_of_ascii c = Some d -> Py.is_space c = false.
Proof.
  unfold Py.digit_of_ascii, Py.is_space.
  destruct (_ && _) eqn:E; [|discriminate]. intros _.
  apply andb_true_iff in E as [E1 E2].
  apply Z.leb_le in E1. apply Z.leb_le in E2.
  set (n := Z.of_N (N_of_ascii c)) in *.
  assert (H1 : (n <=? 13) = false) by (apply Z.leb_gt; lia).
  assert (H2 : (n =? 32) = false) by (apply Z.eqb_neq; lia).
  assert (H3 : (n =? 133) = false) by (apply Z.eqb_neq; lia).
  assert (H4 : (n =? 160) = false) by (apply Z.eqb_neq; lia).
  now rewrite H1, H2, H3, H4, andb_false_r.
Qed.

Lemma digits_tail_all_digits t : forall acc,
  all_digits t = true -> Py.digits_tail acc true t = Py.digits_value acc t.
Proof.
  induction t as [|c t IH]; intros acc H; [reflexivity|].
  cbn [all_digits] in H. apply andb_true_iff in H as [Hc Ht].
  unfold is_digit in Hc. cbn [Py.digits_tail Py.digits_value].
  destruct (Py.digit_of_ascii c); [|discriminate]. now apply IH.
Qed.

(** On a string of digits the literal is the value of the digits. *)
Lemma unsigned_literal_of_digit_string s v :
  Py.unsigned_value s = Some v -> Py.unsigned_literal s = Some v.
Proof.
  destruct s as [|c t]; [discriminate|].
  unfold Py.unsigned_value, Py.unsigned_literal. cbn [Py.digits_value].
  destruct (Py.digit_of_ascii c) as [d|] eqn:Ed; [|discriminate].
  replace (10 * 0 + d) with d by lia. intros H.
  rewrite digits_tail_all_digits; [assumption|].
  eapply digits_value_all_digits; eauto.
Qed.

Lemma int_of_digit_string s v :
  Py.unsigned_value s = Some v -> Py.int s = Some v.
Proof.
  intros H. pose proof (unsigned_literal_of_digit_string _ _ H) as HL.
  destruct s as [|c t]; [discriminate|].
  unfold Py.unsigned_value in H. cbn [Py.digits_value] in H.
  destruct (Py.digit_of_ascii c) eqn:Ed; [|discriminate].
  assert (Hc : c <> "-"%char /\ c <> "+"%char).
  { split; intros ->; vm_compute in Ed; discriminate. }
  destruct Hc as [Hm Hp].
  unfold Py.int. cbn [Py.lstrip]. rewrite (digit_is_not_space _ _ Ed).
  destruct c as [[] [] [] [] [] [] [] []]; try congruence; exact HL.
Qed.

Lemma int_format_05d n : Py.int (Py.format_05d n) = Some n.
Proof.
  unfold Py.format_05d. destruct (n <? 0) eqn:E.
  - apply Z.ltb_lt in E. unfold Py.int.
    change (Py.lstrip (String "-" ?x)) with (String "-"%char x).
    cbv iota.
    rewrite (unsigned_literal_of_digit_string _ (- n))
      by (apply unsigned_value_zfill; lia).
    simpl. f_equal. lia.
  - apply Z.ltb_ge in E. apply int_of_digit_string.
    now apply unsigned_value_zfill.
Qed.

Lemma format_05d_inj n m : Py.format_05d n = Py.format_05d m -> n = m.
Proof.
  intros H. apply (f_equal Py.int) in H. rewrite !int_format_05d in H. congruence.
Qed.



(* ================================================================= *)
(** ** Running the methods *)

Lemma run_events_app w w' evs :
  log w' = (log w ++ evs)%list -> run_events w w' = evs.
Proof.
  intros H. unfold run_events. rewrite H.
  rewrite skipn_app, skipn_all, Nat.sub_diag. reflexivity.
Qed.

Lemma get_latest_file_nr_run w :
  get_latest_file_nr w = (Ret (latest_file_nr (table (conn w))), w).
Proof.
  unfold get_latest_file_nr, latest_file_nr, bind, get_conn.
  destruct (select_top_file_nr (table (conn w))); reflexivity.
Qed.

Lemma insert_hashes_run batch w :
  insert_hashes batch w
  = (Ret tt, mkWorld (after_insert batch (conn w)) (clock w)
               (log w ++ [EvInsert batch])).
Proof.
  unfold insert_hashes, after_insert, bind, emit, get_conn, set_conn, commit.
  cbn [conn clock log].
  destruct (executemany batch (table (conn w))) as [t [e|]]; reflexivity.
Qed.

Lemma insert_hash_run h f w :
  insert_hash h f w
  = (Ret tt, mkWorld (after_insert [(h, f)] (conn w)) (clock w) (log w)).
Proof.
  unfold insert_hash, after_insert, bind, get_conn, set_conn, commit.
  destruct (executemany [(h, f)] (table (conn w))) as [t [e|]]; reflexivity.
Qed.

Lemma urlopen_run remote url w :
  urlopen remote url w
  = (match remote (clock w) url with
     | Found body => Ret body
     | HttpStatus code => Raise (HTTPError code)
     | Unreachable => Raise URLError
     end,
     mkWorld (conn w) (S (clock w))
       (log w ++ [EvFetch url (remote (clock w) url)])).
Proof.
  unfold urlopen. destruct (remote (clock w) url); reflexivity.
Qed.

(** What the freshness check answers and does, by cases on the cursor
    and on the answer of the catalog. *)
Lemma db_is_updated_run remote w :
  db_is_updated remote w =
  let f := latest_file_nr (table (conn w)) in
  if String.eqb f "None" then (Ret PyFalse, w)
  else
    match Py.int f with
    | None => (Raise ValueError, w)
    | Some n =>
        let url := shard_url (Py.format_05d (n + 1)) in
        let r := remote (clock w) url in
        (match r with
         | Found _ => Ret PyFalse
         | HttpStatus code => if code =? 404 then Ret PyTrue else Ret PyNone
         | Unreachable => Ret PyTrue
         end,
         mkWorld (conn w) (S (clock w)) (log w ++ [EvFetch url r]))
    end.
Proof.
  unfold db_is_updated, bind. rewrite get_latest_file_nr_run. cbv zeta.
  destruct (String.eqb _ "None"); [reflexivity|].
  unfold try_except, _check_latest_file, bind, int_of.
  destruct (Py.int _) as [n|]; [|reflexivity].
  unfold ret at 1. rewrite urlopen_run.
  destruct (remote (clock w) _) as [body|code|]; try reflexivity.
  destruct (code =? 404); reflexivity.
Qed.

(** One turn of the loop. *)
Lemma sync_step_run remote f w :
  sync_step remote f w =
  let url := shard_url f in
  let r := remote (clock w) url in
  match r with
  | Found body =>
      (match Py.int f with
       | Some n => Ret (Some (Py.format_05d (n + 1)))
       | None => Raise ValueError
       end,
       mkWorld (after_insert (shard_records body f) (conn w)) (S (clock w))
         (log w ++ [EvFetch url r; EvInsert (shard_records body f)]))
  | HttpStatus _ =>
      (Ret None, mkWorld (conn w) (S (clock w)) (log w ++ [EvFetch url r]))
  | Unreachable =>
      (Raise URLError,
       mkWorld (conn w) (S (clock w)) (log w ++ [EvFetch url r]))
  end.
Proof.
  unfold sync_step, try_except, bind. rewrite urlopen_run. cbv zeta.
  destruct (remote (clock w) (shard_url f)) as [body|code|]; try reflexivity.
  rewrite insert_hashes_run. cbn [conn clock log].
  rewrite <- app_assoc. cbn [app].
  unfold int_of. destruct (Py.int f); reflexivity.
Qed.

(** Every run of the loop follows [loop_trace]. *)
Lemma sync_loop_trace remote fuel : forall f w out w',
  sync_loop remote fuel f w = (out, w') ->
  exists evs, log w' = (log w ++ evs)%list /\
              loop_trace remote (clock w) f evs out.
Proof.
  induction fuel as [|fuel IH]; intros f w out w' H.
  - cbn in H. injection H as <- <-. exists []. rewrite app_nil_r.
    split; [reflexivity|constructor].
  - cbn [sync_loop] in H. unfold bind in H. rewrite sync_step_run in H.
    cbv zeta in H.
    destruct (remote (clock w) (shard_url f)) as [body|code|] eqn:Er.
    + destruct (Py.int f) as [n|] eqn:En.
      * apply IH in H as (evs & Hlog & Htr). cbn [log clock] in *.
        exists (EvFetch (shard_url f) (Found body)
                  :: EvInsert (shard_records body f) :: evs).
        split.
        -- rewrite Hlog, <- app_assoc. reflexivity.
        -- eapply trace_next; eauto.
      * injection H as <- <-. eexists. split; [reflexivity|].
        now apply trace_bad_number.
    + injection H as <- <-. eexists. split; [reflexivity|].
      now apply trace_break.
    + injection H as <- <-. eexists. split; [reflexivity|].
      now apply trace_unreachable.
Qed.

(** The loop only touches the connection through [after_insert]. *)
Lemma sync_loop_invariant remote (Q : string -> Prop) (P : connection -> Prop) :
  (forall f body c, Q f -> P c -> P (after_insert (shard_records body f) c)) ->
  (forall f n, Q f -> Py.int f = Some n -> Q (Py.format_05d (n + 1))) ->
  forall fuel f w out w',
    Q f -> P (conn w) ->
    sync_loop remote fuel f w = (out, w') -> P (conn w').
Proof.
  intros HP HQ. induction fuel as [|fuel IH]; intros f w out w' Hf Hw H.
  - cbn in H. injection H as <- <-. exact Hw.
  - cbn [sync_loop] in H. unfold bind in H. rewrite sync_step_run in H.
    cbv zeta in H.
    destruct (remote (clock w) (shard_url f)) as [body|code|].
    + destruct (Py.int f) as [n|] eqn:En.
      * eapply IH in H; eauto.
      * injection H as <- <-. cbn [conn]. eauto.
    + injection H as <- <-. exact Hw.
    + injection H as <- <-. exact Hw.
Qed.

(** The whole of [download_files], by cases on the freshness check. *)
Lemma download_files_run remote fuel w :
  download_files remote fuel w =
  match db_is_updated remote w with
  | (Ret PyTrue, w1) => (Ret tt, w1)
  | (Ret _, w1) => sync_loop remote fuel (latest_file_nr (table (conn w1))) w1
  | (Raise e, w1) => (Raise e, w1)
  | (Diverge, w1) => (Diverge, w1)
  end.
Proof.
  unfold download_files, bind.
  destruct (db_is_updated remote w) as [[[]|e|] w1]; cbn [py_not];
    try reflexivity; rewrite get_latest_file_nr_run; reflexivity.
Qed.

Lemma db_is_updated_conn remote w out w' :
  db_is_updated remote w = (out, w') -> conn w' = conn w.
Proof.
  rewrite db_is_updated_run. cbv zeta.
  destruct (String.eqb _ _); [now intros [= <- <-]|].
  destruct (Py.int _); now intros [= <- <-].
Qed.

Lemma update_db_run remote fuel w :
  update_db remote fuel w =
  match download_files remote fuel w with
  | (Ret _, w1) => (Ret tt, w1)
  | other => other
  end.
Proof.
  unfold update_db, bind, count_hashes, get_conn, ret.
  destruct (download_files remote fuel w) as [[[]|e|] w1]; reflexivity.
Qed.

(* ================================================================= *)
(** ** Links and file numbers *)

Lemma append_length a b :
  String.length (a ++ b) = (String.length a + String.length b)%nat.
Proof. induction a as [|c a IH]; simpl; congruence. Qed.

Lemma append_inv_tail a : forall b s, a ++ s = b ++ s -> a = b.
Proof.
  induction a as [|c a IH]; intros [|d b] s H; cbn [String.append] in H.
  - reflexivity.
  - apply (f_equal String.length) in H. cbn [String.length] in H.
    rewrite append_length in H. lia.
  - apply (f_equal String.length) in H. cbn [String.length] in H.
    rewrite append_length in H. lia.
  - injection H as -> H. f_equal. eauto.
Qed.

Lemma shard_url_inj a b : shard_url a = shard_url b -> a = b.
Proof.
  unfold shard_url, shard_filename. cbn [String.append].
  intros H. injection H as H. now apply append_inv_tail in H.
Qed.

Lemma indices_from_number k : forall m s,
  In s (indices_from m k) -> exists i, m <= i /\ Py.int s = Some i.
Proof.
  induction k as [|k IH]; intros m s H; [contradiction|].
  cbn [indices_from] in H. destruct H as [<-|H].
  - exists m. split; [lia|apply int_format_05d].
  - apply IH in H as (i & Hi & Hs). exists i. split; [lia|exact Hs].
Qed.

Lemma fetched_urls_app a b :
  fetched_urls (a ++ b) = (fetched_urls a ++ fetched_urls b)%list.
Proof.
  induction a as [|[u r|bt] a IH]; cbn [app fetched_urls]; congruence.
Qed.

Lemma inserted_batches_app a b :
  inserted_batches (a ++ b) = (inserted_batches a ++ inserted_batches b)%list.
Proof.
  induction a as [|[u r|bt] a IH]; cbn [app inserted_batches]; congruence.
Qed.

(* ================================================================= *)
(** ** The loop, seen through its trace *)

(** An answer with an HTTP status ends the trace. *)
Lemma loop_trace_status_last remote t f evs out :
  loop_trace remote t f evs out ->
  forall pre url code post,
    evs = (pre ++ EvFetch url (HttpStatus code) :: post)%list ->
    post = [] /\ out = Ret tt.
Proof.
  induction 1 as [t f|t f c Hr|t f Hr|t f body Hr Hn|t f body n evs out Hr Hn Htr IH];
    intros pre url code post E.
  - destruct pre; discriminate.
  - destruct pre as [|e pre]; [injection E as _ _ <-; auto|].
    destruct pre; discriminate.
  - destruct pre as [|e pre]; [discriminate|]. destruct pre; discriminate.
  - destruct pre as [|e [|e' pre]]; try discriminate.
    destruct pre; discriminate.
  - destruct pre as [|e [|e' pre]]; try discriminate.
    injection E as _ _ E. eauto.
Qed.

(** The links of a trace that starts at a file number reading [n]. *)
Lemma loop_trace_urls remote t f evs out :
  loop_trace remote t f evs out ->
  forall n, Py.int f = Some n ->
    fetched_urls evs = loop_urls f n (List.length (fetched_urls evs)).
Proof.
  induction 1 as [t f|t f c Hr|t f Hr|t f body Hr Hn|t f body m evs out Hr Hn Htr IH];
    intros n En; try reflexivity.
  assert (m = n) by congruence. subst m.
  cbn [fetched_urls List.length loop_urls]. f_equal.
  rewrite (IH (n + 1) (int_format_05d _)) at 1.
  destruct (List.length (fetched_urls evs)); reflexivity.
Qed.

(** A loop with fuel left asks for its file number first. *)
Lemma sync_loop_first_fetch remote fuel f w :
  exists r rest,
    log (snd (sync_loop remote (S fuel) f w))
    = (log w ++ EvFetch (shard_url f) r :: rest)%list.
Proof.
  destruct (sync_loop remote (S fuel) f w) as [out w'] eqn:E.
  cbn [sync_loop] in E. unfold bind in E. rewrite sync_step_run in E.
  cbv zeta in E. cbn [snd].
  destruct (remote (clock w) (shard_url f)) as [body|code|] eqn:Er.
  - destruct (Py.int f) as [n|].
    + apply sync_loop_trace in E as (evs & Hlog & _). cbn [log] in Hlog.
      rewrite Hlog, <- app_assoc. cbn [app]. eauto.
    + injection E as _ <-. cbn [log]. eauto.
  - injection E as _ <-. cbn [log]. eauto.
  - injection E as _ <-. cbn [log]. eauto.
Qed.

Lemma loop_urls_not_below cursor n k s i :
  Py.int cursor = Some n ->
  Py.int s = Some i -> i < n ->
  ~ In (shard_url s) (loop_urls cursor n k).
Proof.
  intros Hc Hs Hlt Hin. destruct k as [|k]; [contradiction|].
  cbn [loop_urls] in Hin. destruct Hin as [E|Hin].
  - apply shard_url_inj in E. subst s. assert (i = n) by congruence. lia.
  - apply in_map_iff in Hin as (s' & E & Hin).
    apply shard_url_inj in E. subst s'.
    apply indices_from_number in Hin as (j & Hj & Hsj).
    assert (i = j) by congruence. lia.
Qed.

(* ================================================================= *)
(** ** C7: exhaustion ends the loop *)

(** C7.  In a run of the syncing loop, alone or inside [download_files],
    a request answered with status 404 is the last event of the run and
    the run has returned: no later index is asked for. *)
Theorem not_found_ends_the_run remote fuel f w out w' pre url post :
  (sync_loop remote fuel f w = (out, w')
   \/ download_files remote fuel w = (out, w')) ->
  run_events w w' = (pre ++ EvFetch url (HttpStatus 404) :: post)%list ->
  post = [] /\ out = Ret tt.
Proof.
  intros [H|H] E.
  - apply sync_loop_trace in H as (evs & Hlog & Htr).
    rewrite (run_events_app _ _ _ Hlog) in E.
    eapply loop_trace_status_last; eauto.
  - rewrite download_files_run, db_is_updated_run in H. cbv zeta in H.
    destruct (String.eqb _ "None").
    + apply sync_loop_trace in H as (evs & Hlog & Htr).
      rewrite (run_events_app _ _ _ Hlog) in E.
      eapply loop_trace_status_last; eauto.
    + destruct (Py.int _) as [n|].
      2:{ injection H as <- <-. unfold run_events in E.
          rewrite skipn_all in E. destruct pre; discriminate. }
      set (u := shard_url (Py.format_05d (n + 1))) in *.
      destruct (remote (clock w) u) as [body|code|] eqn:Er.
      * apply sync_loop_trace in H as (evs & Hlog & Htr).
        cbn [log clock conn] in *. rewrite <- app_assoc in Hlog.
        rewrite (run_events_app _ _ _ Hlog) in E. cbn [app] in E.
        destruct pre as [|e pre]; [discriminate|]. injection E as _ E.
        eapply loop_trace_status_last; eauto.
      * destruct (code =? 404) eqn:Ec.
        -- injection H as <- <-.
           rewrite (run_events_app _ _ [EvFetch u (HttpStatus code)]) in E
             by reflexivity.
           destruct pre as [|e pre]; [injection E as _ _ <-; auto|].
           destruct pre; discriminate.
        -- apply sync_loop_trace in H as (evs & Hlog & Htr).
           cbn [log clock conn] in *. rewrite <- app_assoc in Hlog.
           rewrite (run_events_app _ _ _ Hlog) in E. cbn [app] in E.
           destruct pre as [|e pre].
           ++ injection E as _ Ecode _. subst code. discriminate.
           ++ injection E as _ E. eapply loop_trace_status_last; eauto.
      * injection H as <- <-.
        rewrite (run_events_app _ _ [EvFetch u Unreachable]) in E
          by reflexivity.
        destruct pre as [|e pre]; [discriminate|]. destruct pre; discriminate.
Qed.

(** A run on the empty store against shards 00000 and 00001: the answer
    404 for index 00002 is the last event and the run returns. *)
Lemma not_found_ends_the_run_witness :
  ([] : list event) = []
  /\ fst (download_files catalog_0_1 9 fresh_world) = Ret tt.
Proof.
  apply (not_found_ends_the_run catalog_0_1 9 EmptyString fresh_world
           (fst (download_files catalog_0_1 9 fresh_world))
           (snd (download_files catalog_0_1 9 fresh_world))
           (removelast
              (run_events fresh_world
                 (snd (download_files catalog_0_1 9 fresh_world))))
           (shard_url "00002") []).
  - right. apply surjective_pairing.
  - vm_compute. reflexivity.
Defined.

(* ================================================================= *)
(** ** C1: where the loop starts *)

(** C1, as the specification words it, fails: with shard 00003 stored
    and shards 00003 and 00004 published, the probe finds 00004 and the
    loop then asks for 00003 again before it asks for 00004. *)
Lemma loop_refetches_the_cursor :
  ~ loop_starts_after_cursor catalog_3_4 9 (stored [("aa", Some "00003")]).
Proof.
  intros H.
  destruct (H 3 (lines ["bb"]) eq_refl eq_refl) as [k Hk].
  vm_compute in Hk.
  destruct k as [|k]; [discriminate|].
  cbn [indices_from map] in Hk. vm_compute in Hk. discriminate.
Qed.

(** C1, amended.  When the probe of cursor+1 finds a shard, the run asks
    for the probe and then the loop asks for the cursor itself, then for
    cursor+1, cursor+2, ... in that order; the loop asks for no file
    number that reads below the cursor. *)
Theorem loop_starts_at_cursor remote fuel w out w' n body :
  Py.int (latest_file_nr (table (conn w))) = Some n ->
  remote (clock w) (shard_url (Py.format_05d (n + 1))) = Found body ->
  download_files remote fuel w = (out, w') ->
  exists k,
    fetched_urls (run_events w w')
    = shard_url (Py.format_05d (n + 1))
        :: loop_urls (latest_file_nr (table (conn w))) n k
    /\ (fuel <> O -> k <> O)
    /\ forall s i, Py.int s = Some i -> i < n ->
         ~ In (shard_url s) (loop_urls (latest_file_nr (table (conn w))) n k).
Proof.
  intros Hn Hr H.
  rewrite download_files_run, db_is_updated_run in H. cbv zeta in H.
  destruct (String.eqb _ "None") eqn:Enone.
  { apply String.eqb_eq in Enone. rewrite Enone in Hn. discriminate. }
  rewrite Hn, Hr in H. cbn [conn] in H.
  set (cursor := latest_file_nr (table (conn w))) in *.
  set (w1 := mkWorld _ _ _) in H.
  pose proof (sync_loop_trace _ _ _ _ _ _ H) as (evs & Hlog & Htr).
  exists (List.length (fetched_urls evs)).
  split; [|split].
  - subst w1. cbn [log] in Hlog. rewrite <- app_assoc in Hlog.
    rewrite (run_events_app _ _ _ Hlog). cbn [app fetched_urls]. f_equal.
    eapply loop_trace_urls; eauto.
  - intros Hfuel. destruct fuel as [|fuel]; [congruence|].
    destruct (sync_loop_first_fetch remote fuel cursor w1) as (r & rest & Hfirst).
    rewrite H in Hfirst. cbn [snd] in Hfirst. rewrite Hlog in Hfirst.
    apply app_inv_head in Hfirst. subst evs. discriminate.
  - intros s i Hs Hi. now apply loop_urls_not_below with (i := i).
Qed.

(** With shard 00003 stored and shards 00003 and 00004 published the
    loop asks for 00003, 00004 and 00005. *)
Lemma loop_starts_at_cursor_witness :
  exists k,
    fetched_urls
      (run_events (stored [("aa", Some "00003")])
         (snd (download_files catalog_3_4 9 (stored [("aa", Some "00003")]))))
    = shard_url (Py.format_05d (3 + 1)) :: loop_urls "00003" 3 k
    /\ (9%nat <> O -> k <> O)
    /\ forall s i, Py.int s = Some i -> i < 3 ->
         ~ In (shard_url s) (loop_urls "00003" 3 k).
Proof.
  apply (loop_starts_at_cursor catalog_3_4 9 (stored [("aa", Some "00003")])
           (fst (download_files catalog_3_4 9 (stored [("aa", Some "00003")])))
           (snd (download_files catalog_3_4 9 (stored [("aa", Some "00003")])))
           3 (lines ["bb"])).
  - reflexivity.
  - reflexivity.
  - apply surjective_pairing.
Defined.

(* ================================================================= *)
(** ** C5: a second run with nothing new *)

(** A run whose probe is answered with 404 asks once and changes
    nothing. *)
Lemma idle_run remote fuel w n :
  Py.int (latest_file_nr (table (conn w))) = Some n ->
  remote (clock w) (shard_url (Py.format_05d (n + 1))) = HttpStatus 404 ->
  update_db remote fuel w
  = (Ret tt,
     mkWorld (conn w) (S (clock w))
       (log w ++ [EvFetch (shard_url (Py.format_05d (n + 1))) (HttpStatus 404)])).
Proof.
  intros Hn Hr.
  rewrite update_db_run, download_files_run, db_is_updated_run. cbv zeta.
  destruct (String.eqb _ "None") eqn:Enone.
  { apply String.eqb_eq in Enone. rewrite Enone in Hn. discriminate. }
  rewrite Hn, Hr. reflexivity.
Qed.

(** A cursor that [int] cannot read, other than the text None, stops
    the run before any request: nothing is fetched or inserted. *)
Lemma unreadable_cursor_run remote fuel w :
  Py.int (latest_file_nr (table (conn w))) = None ->
  latest_file_nr (table (conn w)) <> "None" ->
  update_db remote fuel w = (Raise ValueError, w).
Proof.
  intros Hn Hnone.
  rewrite update_db_run, download_files_run, db_is_updated_run. cbv zeta.
  apply String.eqb_neq in Hnone. rewrite Hnone, Hn. reflexivity.
Qed.

(** After a completed run, if the catalog answers 404 for every index
    beyond the cursor of the store, a second run returns, performs no
    insert, makes the one request of the probe and leaves the
    connection, rows and committed rows, as it was. *)
Theorem second_run_is_idle remote fuel fuel' w0 w1 n :
  update_db remote fuel w0 = (Ret tt, w1) ->
  Py.int (latest_file_nr (table (conn w1))) = Some n ->
  publishes_nothing_beyond remote n ->
  exists w2,
    update_db remote fuel' w1 = (Ret tt, w2)
    /\ conn w2 = conn w1
    /\ inserted_batches (run_events w1 w2) = []
    /\ fetched_urls (run_events w1 w2) = [shard_url (Py.format_05d (n + 1))].
Proof.
  intros _ Hn Hnone.
  assert (Hr : remote (clock w1) (shard_url (Py.format_05d (n + 1)))
               = HttpStatus 404) by (apply Hnone; lia).
  eexists. split; [apply idle_run; eassumption|].
  cbn [conn]. split; [reflexivity|].
  rewrite (run_events_app _ _ [EvFetch _ _]) by reflexivity.
  split; reflexivity.
Qed.

Lemma catalog_0_1_exhausted : publishes_nothing_beyond catalog_0_1 1.
Proof.
  intros t i Hi. unfold catalog_0_1.
  destruct (String.eqb_spec (shard_url (Py.format_05d i)) (shard_url "00000"))
    as [E|_].
  { apply shard_url_inj in E. apply (f_equal Py.int) in E.
    rewrite int_format_05d in E. vm_compute in E. injection E as E. lia. }
  destruct (String.eqb_spec (shard_url (Py.format_05d i)) (shard_url "00001"))
    as [E|_]; [|reflexivity].
  apply shard_url_inj in E. apply (f_equal Py.int) in E.
  rewrite int_format_05d in E. vm_compute in E. injection E as E. lia.
Qed.

(** The empty store is synchronised with shards 00000 and 00001; the run
    that follows asks for 00002 and inserts nothing. *)
Lemma second_run_is_idle_witness :
  exists w2,
    update_db catalog_0_1 9 (snd (update_db catalog_0_1 9 fresh_world))
    = (Ret tt, w2)
    /\ conn w2 = conn (snd (update_db catalog_0_1 9 fresh_world))
    /\ inserted_batches
         (run_events (snd (update_db catalog_0_1 9 fresh_world)) w2) = []
    /\ fetched_urls
         (run_events (snd (update_db catalog_0_1 9 fresh_world)) w2)
       = [shard_url (Py.format_05d (1 + 1))].
Proof.
  apply (second_run_is_idle catalog_0_1 9 9 fresh_world
           (snd (update_db catalog_0_1 9 fresh_world)) 1).
  - vm_compute. reflexivity.
  - vm_compute. reflexivity.
  - exact catalog_0_1_exhausted.
Defined.

Lemma catalog_error_later_has_no_shard :
  publishes_no_shard_beyond catalog_error_later 3.
Proof.
  intros t i body Hi. unfold catalog_error_later.
  destruct (String.eqb_spec (shard_url (Py.format_05d i)) (shard_url "00003"))
    as [E|_].
  { apply shard_url_inj in E. apply (f_equal Py.int) in E.
    rewrite int_format_05d in E. vm_compute in E. injection E as E. lia. }
  destruct t; discriminate.
Qed.

(** C5, on the code.  The store holds hash aa of shard 00003 and the
    catalog publishes nothing beyond 00003.  A first run, whose probe of
    00004 is answered 404, completes and changes nothing.  The probe of
    the run that follows at once meets a server error: the freshness
    check hands back [None] (the defect of C3), the loop is entered,
    shard 00003 is fetched again, [insert_hashes] is called and hash bb
    becomes visible.  The store has changed where the claim has a run
    without inserts. *)
Theorem server_error_breaks_idempotence :
  let w0 := stored [("aa", Some "00003")] in
  let w1 := mkWorld (conn w0) 1
              [EvFetch (shard_url "00004") (HttpStatus 404)] in
  update_db catalog_error_later 9 w0 = (Ret tt, w1)
  /\ publishes_no_shard_beyond catalog_error_later 3
  /\ update_db catalog_error_later 9 w1
     = (Ret tt,
        mkWorld (mkConn [("aa", Some "00003"); ("bb", Some "00003")]
                   [("aa", Some "00003")]) 4
          [EvFetch (shard_url "00004") (HttpStatus 404);
           EvFetch (shard_url "00004") (HttpStatus 500);
           EvFetch (shard_url "00003") (Found (lines ["bb"; "aa"]));
           EvInsert [("bb", Some "00003"); ("aa", Some "00003")];
           EvFetch (shard_url "00004") (HttpStatus 500)])
  /\ ~ second_run_idle_as_claimed catalog_error_later 9 w0.
Proof.
  cbv zeta. split; [vm_compute; reflexivity|].
  split; [exact catalog_error_later_has_no_shard|].
  split; [vm_compute; reflexivity|].
  intros H.
  destruct (H 3 eq_refl eq_refl catalog_error_later_has_no_shard) as [H1 _].
  vm_compute in H1. discriminate.
Qed.

(* ================================================================= *)
(** ** C3: a probe that fails with a server error *)

(** With an HTTP status other than 404 the freshness check falls off its
    end and hands back [None]. *)
Lemma db_is_updated_none remote w n code :
  Py.int (latest_file_nr (table (conn w))) = Some n ->
  remote (clock w) (shard_url (Py.format_05d (n + 1))) = HttpStatus code ->
  code <> 404 ->
  fst (db_is_updated remote w) = Ret PyNone.
Proof.
  intros Hn Hr Hc. rewrite db_is_updated_run. cbv zeta.
  destruct (String.eqb _ "None") eqn:Enone.
  { apply String.eqb_eq in Enone. rewrite Enone in Hn. discriminate. }
  rewrite Hn, Hr. apply Z.eqb_neq in Hc. rewrite Hc. reflexivity.
Qed.

(** C3, on the code.  Empty store, status 500 for the probe of 00001:
    the check hands back [None], [download_files] takes it for false,
    enters the loop, fetches shard 00000, inserts its hash and goes on
    to 00001, where the claim has one request and no insert. *)
Theorem server_error_enters_the_loop :
  fst (db_is_updated catalog_error_first fresh_world) = Ret PyNone
  /\ download_files catalog_error_first 9 fresh_world
     = (Ret tt,
        mkWorld (mkConn [("h1", Some "00000")] [("h1", Some "00000")]) 3
          [EvFetch (shard_url "00001") (HttpStatus 500);
           EvFetch (shard_url "00000") (Found (lines ["h1"]));
           EvInsert [("h1", Some "00000")];
           EvFetch (shard_url "00001") (HttpStatus 404)])
  /\ ~ probe_failure_is_idle catalog_error_first 9 fresh_world.
Proof.
  split; [reflexivity|]. split; [vm_compute; reflexivity|].
  intros H. destruct (H 0 500 eq_refl eq_refl ltac:(discriminate)) as [H1 _].
  vm_compute in H1. discriminate.
Qed.

(* ================================================================= *)
(** ** The primary key and the batch insert *)

Lemma has_hash_In h t : has_hash h t = true <-> In h (hashes t).
Proof.
  unfold has_hash, hashes. rewrite existsb_exists, in_map_iff.
  split; intros (r & H1 & H2).
  - exists r. split; [now apply String.eqb_eq|assumption].
  - exists r. split; [assumption|now apply String.eqb_eq].
Qed.

Lemma has_hash_false h t : has_hash h t = false <-> ~ In h (hashes t).
Proof.
  rewrite <- has_hash_In. destruct (has_hash h t); split; congruence.
Qed.

Lemma hashes_app a b : hashes (a ++ b) = (hashes a ++ hashes b)%list.
Proof. apply map_app. Qed.

Lemma has_hash_app h a b : has_hash h (a ++ b) = has_hash h a || has_hash h b.
Proof. unfold has_hash. apply existsb_app. Qed.

(** A batch of distinct, new hashes goes through whole. *)
Lemma executemany_clean batch : forall t,
  NoDup (hashes (t ++ batch)) -> executemany batch t = ((t ++ batch)%list, None).
Proof.
  induction batch as [|r rest IH]; intros t Hnd.
  - cbn. now rewrite app_nil_r.
  - cbn [executemany].
    assert (E : has_hash (hash_of r) t = false).
    { apply has_hash_false. intros Hin.
      rewrite hashes_app in Hnd. cbn in Hnd.
      apply NoDup_remove_2 in Hnd. apply Hnd. apply in_or_app. now left. }
    rewrite E.
    replace (t ++ r :: rest)%list with ((t ++ [r]) ++ rest)%list in *
      by (now rewrite <- app_assoc).
    now apply IH.
Qed.


(** [executemany] appends the longest prefix of the batch that the
    primary key accepts, and raises exactly when a record is left. *)
Lemma executemany_prefix batch : forall t,
  exists k,
    (k <= List.length batch)%nat
    /\ fst (executemany batch t) = (t ++ firstn k batch)%list
    /\ (forall j r, nth_error batch j = Some r -> (j < k)%nat ->
          has_hash (hash_of r) (t ++ firstn j batch) = false)
    /\ (k = List.length batch -> snd (executemany batch t) = None)
    /\ (forall r, nth_error batch k = Some r ->
          has_hash (hash_of r) (t ++ firstn k batch) = true
          /\ snd (executemany batch t) = Some IntegrityError).
Proof.
  induction batch as [|r rest IH]; intros t.
  - exists O. cbn. rewrite app_nil_r.
    split; [lia|]. split; [reflexivity|]. split; [intros; lia|].
    split; [reflexivity|discriminate].
  - cbn [executemany]. destruct (has_hash (hash_of r) t) eqn:Eh.
    + exists O. cbn [firstn fst snd List.length nth_error]. rewrite app_nil_r.
      split; [lia|]. split; [reflexivity|]. split; [intros; lia|].
      split; [discriminate|]. intros r' [= <-]. auto.
    + destruct (IH (t ++ [r])%list) as (k & Hk & Hfst & Hacc & Hall & Hrej).
      exists (S k). cbn [firstn List.length].
      assert (Happ : forall j, ((t ++ [r]) ++ firstn j rest = t ++ r :: firstn j rest)%list)
        by (intros; now rewrite <- app_assoc).
      split; [lia|]. split; [now rewrite Hfst, Happ|].
      split; [|split].
      * intros [|j] r' Hnth Hj; cbn [nth_error firstn] in *.
        -- injection Hnth as <-. now rewrite app_nil_r.
        -- rewrite <- Happ. apply Hacc; [assumption|lia].
      * intros E. apply Hall. lia.
      * intros r' Hnth. cbn [nth_error] in Hnth. rewrite <- Happ.
        now apply Hrej.
Qed.

(* ================================================================= *)
(** ** C2: a duplicate inside a batch *)

(** C2, on the code.  The store holds hash a; the batch brings a again,
    then b.  The insert of a raises IntegrityError, which ends
    [executemany]: b is never inserted and the call reports nothing to
    its caller.  In a run over shards 00000 and 00001, which share h1,
    the hash h4 that follows h1 in shard 00001 is lost in the same
    way. *)
Theorem duplicate_drops_rest_of_batch :
  let w := stored [("a", Some "00000")] in
  let batch := [("a", Some "00001"); ("b", Some "00001")] in
  insert_hashes batch w
  = (Ret tt, mkWorld (mkConn [("a", Some "00000")] [("a", Some "00000")]) 0
               [EvInsert batch])
  /\ fst (hash_exists "b" (snd (insert_hashes batch w))) = Ret false
  /\ fst (hash_exists "h4" (snd (download_files catalog_0_1 9 fresh_world)))
     = Ret false
  /\ ~ duplicates_ignored batch w.
Proof.
  cbv zeta. split; [reflexivity|]. split; [reflexivity|].
  split; [reflexivity|].
  intros H. specialize (H ("b", Some "00001") (or_intror (or_introl eq_refl))).
  vm_compute in H. discriminate.
Qed.

(* ================================================================= *)
(** ** C4: atomicity and error reporting of the batch insert *)





(* ================================================================= *)
(** ** The order of the [file_nr] column *)

Lemma string_leb_iff a b :
  String.leb a b = true <-> a = b \/ String_as_OT.lt a b.
Proof.
  unfold String.leb.
  destruct (String.compare a b) eqn:E.
  - apply String_as_OT.cmp_eq in E. tauto.
  - apply String_as_OT.cmp_lt in E. tauto.
  - split; [discriminate|]. intros [H|H].
    + apply String_as_OT.cmp_eq in H. unfold String_as_OT.cmp in H. congruence.
    + apply String_as_OT.cmp_lt in H. unfold String_as_OT.cmp in H. congruence.
Qed.

Lemma string_leb_refl a : String.leb a a = true.
Proof. apply string_leb_iff. now left. Qed.

Lemma string_leb_trans a b c :
  String.leb a b = true -> String.leb b c = true -> String.leb a c = true.
Proof.
  rewrite !string_leb_iff. intros [->|H1] [->|H2]; auto.
  right. eapply String_as_OT.lt_trans; eauto.
Qed.

Lemma value_leb_refl v : value_leb v v = true.
Proof. destruct v; [apply string_leb_refl|reflexivity]. Qed.

Lemma value_leb_trans a b c :
  value_leb a b = true -> value_leb b c = true -> value_leb a c = true.
Proof.
  destruct a, b, c; cbn; try congruence. apply string_leb_trans.
Qed.

Lemma value_leb_total a b : value_leb a b = true \/ value_leb b a = true.
Proof.
  destruct a, b; cbn; auto. apply String.leb_total.
Qed.

Lemma greater_bounds m v :
  value_leb m (greater m v) = true /\ value_leb v (greater m v) = true
  /\ (greater m v = m \/ greater m v = v).
Proof.
  unfold greater. destruct (value_leb m v) eqn:E.
  - split; [assumption|]. split; [apply value_leb_refl|now right].
  - split; [apply value_leb_refl|]. split; [|now left].
    destruct (value_leb_total m v); congruence.
Qed.

Lemma fold_greater_is_max l : forall m,
  let r := fold_left greater l m in
  (r = m \/ In r l)
  /\ value_leb m r = true
  /\ forall x, In x l -> value_leb x r = true.
Proof.
  induction l as [|v l IH]; intros m; cbn [fold_left].
  - split; [now left|]. split; [apply value_leb_refl|contradiction].
  - destruct (IH (greater m v)) as (Hin & Hm & Hall).
    destruct (greater_bounds m v) as (Gm & Gv & Gor).
    split; [|split].
    + destruct Hin as [E|Hin]; [|right; now right].
      rewrite E. destruct Gor as [->| ->]; [now left|right; now left].
    + eapply value_leb_trans; eauto.
    + intros x [<-|Hx]; [eapply value_leb_trans; eauto|auto].
Qed.

(** The row that [ORDER BY file_nr DESC LIMIT 1] delivers carries a
    greatest value of the column. *)
Lemma select_top_is_max t v :
  select_top_file_nr t = Some v ->
  In v (map file_nr_of t)
  /\ forall v', In v' (map file_nr_of t) -> value_leb v' v = true.
Proof.
  destruct t as [|r rest]; [discriminate|]. cbn [select_top_file_nr map].
  intros [= <-].
  destruct (fold_greater_is_max (map file_nr_of rest) (file_nr_of r))
    as (Hin & Hm & Hall).
  split.
  - destruct Hin as [->|Hin]; [now left|now right].
  - intros v' [<-|Hv']; auto.
Qed.

Lemma select_top_nonempty t :
  t <> [] -> exists v, select_top_file_nr t = Some v.
Proof. destruct t; [congruence|]. cbn. eauto. Qed.

(** On strings of digits of one length the BINARY collation is the
    order of the numbers. *)
Lemma digit_of_ascii_code c d :
  Py.digit_of_ascii c = Some d -> d = Z.of_N (N_of_ascii c) - 48.
Proof.
  unfold Py.digit_of_ascii. destruct (_ && _); [|discriminate].
  now intros [= <-].
Qed.

Lemma compare_digit_strings s1 : forall s2 v1 v2,
  String.length s1 = String.length s2 ->
  Py.digits_value 0 s1 = Some v1 ->
  Py.digits_value 0 s2 = Some v2 ->
  String.compare s1 s2 = (v1 ?= v2).
Proof.
  induction s1 as [|c1 t1 IH]; intros [|c2 t2] v1 v2 Hlen H1 H2;
    try discriminate.
  - cbn in *. injection H1 as <-. injection H2 as <-. reflexivity.
  - pose proof (digits_value_all_digits _ _ _ H1) as A1.
    pose proof (digits_value_all_digits _ _ _ H2) as A2.
    cbn [all_digits] in A1, A2.
    apply andb_true_iff in A1 as [_ A1]. apply andb_true_iff in A2 as [_ A2].
    destruct (all_digits_value _ A1) as (u1 & B1 & F1).
    destruct (all_digits_value _ A2) as (u2 & B2 & F2).
    cbn [Py.digits_value] in H1, H2.
    destruct (Py.digit_of_ascii c1) as [d1|] eqn:D1; [|discriminate].
    destruct (Py.digit_of_ascii c2) as [d2|] eqn:D2; [|discriminate].
    rewrite F1 in H1. rewrite F2 in H2.
    injection H1 as <-. injection H2 as <-.
    injection Hlen as Hlen. rewrite <- Hlen in *.
    set (P := 10 ^ Z.of_nat (String.length t1)) in *.
    pose proof (digit_of_ascii_code _ _ D1) as C1.
    pose proof (digit_of_ascii_code _ _ D2) as C2.
    pose proof (digit_of_ascii_range _ _ D1) as R1.
    pose proof (digit_of_ascii_range _ _ D2) as R2.
    cbn [String.compare]. unfold Ascii.compare.
    rewrite <- N2Z.inj_compare.
    destruct (Z.compare_spec (Z.of_N (N_of_ascii c1)) (Z.of_N (N_of_ascii c2)))
      as [E|E|E].
    + assert (d1 = d2) by lia. subst d2.
      rewrite (IH t2 u1 u2 Hlen).
      * symmetry. rewrite !(Z.add_comm _ u1), !(Z.add_comm _ u2).
        destruct (Z.compare_spec u1 u2); [apply Z.compare_eq_iff
                                         |apply Z.compare_lt_iff
                                         |apply Z.compare_gt_iff]; lia.
      * rewrite F1. f_equal; lia.
      * rewrite F2. f_equal; lia.
    + symmetry. apply Z.compare_lt_iff. nia.
    + symmetry. apply Z.compare_gt_iff. nia.
Qed.

Lemma shard_index_value s :
  is_shard_index s = true ->
  exists v, Py.int s = Some v /\ Py.digits_value 0 s = Some v /\ 0 <= v.
Proof.
  unfold is_shard_index. intros H. apply andb_true_iff in H as [Hlen Hd].
  apply Nat.eqb_eq in Hlen.
  destruct (all_digits_value _ Hd) as (v & Hv & Hacc).
  assert (H0 : Py.digits_value 0 s = Some v)
    by (rewrite Hacc; f_equal; lia).
  exists v. split; [|split; [assumption|lia]].
  apply int_of_digit_string. unfold Py.unsigned_value.
  destruct s; [discriminate|assumption].
Qed.

Lemma shard_index_leb s1 s2 v1 v2 :
  is_shard_index s1 = true -> is_shard_index s2 = true ->
  Py.int s1 = Some v1 -> Py.int s2 = Some v2 ->
  String.leb s1 s2 = true -> v1 <= v2.
Proof.
  intros I1 I2 H1 H2 Hle.
  destruct (shard_index_value _ I1) as (u1 & E1 & D1 & _).
  destruct (shard_index_value _ I2) as (u2 & E2 & D2 & _).
  assert (u1 = v1) by congruence. assert (u2 = v2) by congruence. subst.
  unfold is_shard_index in I1, I2.
  apply andb_true_iff in I1 as [L1 _]. apply andb_true_iff in I2 as [L2 _].
  apply Nat.eqb_eq in L1, L2.
  unfold String.leb in Hle.
  rewrite (compare_digit_strings s1 s2 v1 v2) in Hle by congruence.
  destruct (Z.compare_spec v1 v2); first [lia | discriminate].
Qed.

(* ================================================================= *)
(** ** C6: the latest file number *)

(** C6, as the specification words it, fails.  The answer on an empty
    table is no value of its own: a table whose one row belongs to
    shard 00000 gets the same answer 00000.  And the greatest value is
    taken in the order of the text: with the file numbers 99999 and
    100000 stored, the answer is 99999. *)
Lemma sentinel_is_shared_with_first_shard :
  ~ sentinel_is_distinguished
  /\ latest_file_nr [("h1", Some "00000")] = latest_file_nr []
  /\ latest_file_nr [("x", Some "99999"); ("y", Some "100000")] = "99999".
Proof.
  split; [|split; reflexivity].
  intros H. apply (H [("h1", Some "00000")]); [discriminate|reflexivity].
Qed.

(** C6, amended.  [get_latest_file_nr] hands back the world it was
    given.  On an empty table it answers 00000, and a table whose rows
    all belong to shard 00000 gets that same answer.  On a table with
    rows it answers the text of a value of the [file_nr] column that is
    greatest in the order of that column (NULL first, then text byte by
    byte); when every row carries a shard index of five digits, that
    value is the index with the greatest number. *)
Theorem latest_file_nr_is_maximum w :
  let t := table (conn w) in
  get_latest_file_nr w = (Ret (latest_file_nr t), w)
  /\ (t = [] -> latest_file_nr t = "00000")
  /\ (t <> [] ->
      exists v, In v (map file_nr_of t)
                /\ latest_file_nr t = py_str v
                /\ forall v', In v' (map file_nr_of t) -> value_leb v' v = true)
  /\ (t <> [] -> forallb indexed_row t = true ->
      exists n, Py.int (latest_file_nr t) = Some n
                /\ In (Some (latest_file_nr t)) (map file_nr_of t)
                /\ forall r, In r t ->
                     exists s m, file_nr_of r = Some s
                                 /\ Py.int s = Some m /\ m <= n)
  /\ (t <> [] -> (forall r, In r t -> file_nr_of r = Some "00000") ->
      latest_file_nr t = latest_file_nr []).
Proof.
  cbv zeta. split; [apply get_latest_file_nr_run|].
  split; [intros ->; reflexivity|].
  split; [|split].
  - intros Hne. destruct (select_top_nonempty _ Hne) as [v Hv].
    destruct (select_top_is_max _ _ Hv) as [Hin Hmax].
    exists v. unfold latest_file_nr. rewrite Hv. auto.
  - intros Hne Hidx. destruct (select_top_nonempty _ Hne) as [v Hv].
    destruct (select_top_is_max _ _ Hv) as [Hin Hmax].
    unfold latest_file_nr. rewrite Hv.
    rewrite forallb_forall in Hidx.
    apply in_map_iff in Hin as (r0 & Er0 & Hr0).
    pose proof (Hidx _ Hr0) as I0. unfold indexed_row in I0.
    rewrite Er0 in I0. destruct v as [s0|]; [|discriminate].
    destruct (shard_index_value _ I0) as (n & En & _ & _).
    exists n. cbn [py_str]. split; [assumption|].
    split; [rewrite <- Er0; now apply in_map|].
    intros r Hr. pose proof (Hidx _ Hr) as I. unfold indexed_row in I.
    destruct (file_nr_of r) as [s|] eqn:Es; [|discriminate].
    destruct (shard_index_value _ I) as (m & Em & _ & _).
    exists s, m. split; [reflexivity|]. split; [assumption|].
    apply (shard_index_leb s s0 m n I I0 Em En).
    apply (Hmax (Some s)). rewrite <- Es. now apply in_map.
  - intros Hne Hall. unfold latest_file_nr at 1.
    destruct (select_top_nonempty _ Hne) as [v Hv]. rewrite Hv.
    apply select_top_is_max in Hv as [Hin _].
    apply in_map_iff in Hin as (r & <- & Hr). now rewrite (Hall _ Hr).
Qed.

(** Rows of shards 00000, 00002 and 00001, in that order of insertion:
    the answer is 00002. *)
Lemma latest_file_nr_is_maximum_witness :
  latest_file_nr three_rows = "00002"
  /\ exists n, Py.int (latest_file_nr three_rows) = Some n
               /\ In (Some (latest_file_nr three_rows)) (map file_nr_of three_rows)
               /\ forall r, In r three_rows ->
                    exists s m, file_nr_of r = Some s
                                /\ Py.int s = Some m /\ m <= n.
Proof.
  split; [reflexivity|].
  apply (proj1 (proj2 (proj2 (proj2 (latest_file_nr_is_maximum (stored three_rows)))))).
  - discriminate.
  - reflexivity.
Defined.

(* ================================================================= *)
(** ** Invariants of the connection *)

Lemma download_files_invariant remote
  (Q : string -> Prop) (P : connection -> Prop) :
  (forall f body c, Q f -> P c -> P (after_insert (shard_records body f) c)) ->
  (forall f n, Q f -> Py.int f = Some n -> Q (Py.format_05d (n + 1))) ->
  (forall c, P c -> Q (latest_file_nr (table c))) ->
  forall fuel w out w',
    P (conn w) ->
    download_files remote fuel w = (out, w') -> P (conn w').
Proof.
  intros HP HQ Hcur fuel w out w' Hw H.
  rewrite download_files_run in H.
  destruct (db_is_updated remote w) as [o w1] eqn:E.
  apply db_is_updated_conn in E.
  assert (Hw1 : P (conn w1)) by now rewrite E.
  destruct o as [[]|e|]; try (injection H as <- <-; assumption).
  all: eapply (sync_loop_invariant remote Q P); eauto.
Qed.

Lemma update_db_conn remote fuel w out w' :
  update_db remote fuel w = (out, w') ->
  exists out', download_files remote fuel w = (out', w').
Proof.
  rewrite update_db_run.
  destruct (download_files remote fuel w) as [[[]|e|] w1];
    intros [= <- <-]; eauto.
Qed.

(** *** The primary key *)

Create HintDb store.

Lemma executemany_unique batch : forall t,
  NoDup (hashes t) -> NoDup (hashes (fst (executemany batch t))).
Proof.
  induction batch as [|r rest IH]; intros t Ht; [assumption|].
  cbn [executemany]. destruct (has_hash (hash_of r) t) eqn:E; [assumption|].
  apply IH. rewrite hashes_app. cbn.
  apply has_hash_false in E.
  apply NoDup_app; [assumption|repeat constructor; intros []|].
  intros h Hin [<-|[]]. contradiction.
Qed.

Lemma delete_hash_unique h t :
  NoDup (hashes t) -> NoDup (hashes (delete_hash h t)).
Proof.
  unfold hashes, delete_hash.
  induction t as [|r t IH]; intros Ht; [constructor|].
  cbn [map] in Ht. inversion Ht as [|? ? Hnin Hnd]; subst.
  cbn [filter]. destruct (negb _); [|auto].
  cbn [map]. constructor; [|auto].
  intros Hin. apply Hnin. apply in_map_iff in Hin as (r' & E & Hr').
  apply filter_In in Hr' as [Hr' _]. apply in_map_iff. eauto.
Qed.

Lemma after_insert_unique batch c :
  unique_hashes c -> unique_hashes (after_insert batch c).
Proof.
  intros [Ht Hc]. unfold after_insert, unique_hashes.
  pose proof (executemany_unique batch _ Ht) as H.
  destruct (executemany batch (table c)) as [t [e|]]; cbn [fst table committed] in *;
    auto.
Qed.

#[local] Hint Resolve after_insert_unique : store.

Lemma run_call_unique c w out w' :
  unique_hashes (conn w) -> run_call c w = (out, w') -> unique_hashes (conn w').
Proof.
  intros Hw H. destruct c as [|h f|b|h|remote fuel|remote fuel]; cbn [run_call] in H.
  - injection H as _ <-. destruct Hw. split; assumption.
  - rewrite insert_hash_run in H. injection H as _ <-.
    now apply after_insert_unique.
  - rewrite insert_hashes_run in H. injection H as _ <-.
    now apply after_insert_unique.
  - injection H as _ <-. destruct Hw as [Ht Hc].
    split; [now apply delete_hash_unique|assumption].
  - eapply (download_files_invariant remote (fun _ => True) unique_hashes);
      eauto with store.
  - apply update_db_conn in H as [out' H].
    eapply (download_files_invariant remote (fun _ => True) unique_hashes);
      eauto with store.
Qed.

Lemma reachable_unique allowed w :
  reachable_by allowed w -> unique_hashes (conn w).
Proof.
  induction 1 as [clk lg|w c out w' _ IH _ Hrun].
  - split; constructor.
  - eapply run_call_unique; eauto.
Qed.

Lemma count_hash_unique h t : NoDup (hashes t) -> (count_hash h t <= 1)%nat.
Proof.
  unfold count_hash, hashes.
  induction t as [|r t IH]; intros Ht; [cbn; lia|].
  cbn [map] in Ht. inversion Ht as [|? ? Hnin Hnd]; subst.
  cbn [filter]. destruct (String.eqb_spec (hash_of r) h) as [E|E]; [|auto].
  cbn [List.length]. 
  assert (Hz : filter (fun r0 => String.eqb (hash_of r0) h) t = []).
  { destruct (filter _ t) as [|r' l] eqn:F; [reflexivity|].
    exfalso. apply Hnin.
    assert (Hin : In r' (filter (fun r0 => String.eqb (hash_of r0) h) t))
      by (rewrite F; now left).
    apply filter_In in Hin as [Hin Hh]. apply String.eqb_eq in Hh.
    apply in_map_iff. exists r'. split; [congruence|assumption]. }
  rewrite Hz. cbn. lia.
Qed.

(* ================================================================= *)
(** ** C9: one record per hash *)

(** C9.  In every world reached from a fresh database by calls of the
    class, synchronisation runs included, the visible rows and the
    committed rows hold at most one record per hash; a batch insert
    never raises, whatever the batch holds; and a turn of the loop whose
    shard was fetched goes on to the next file number whether or not
    the insert met a duplicate. *)
Theorem hash_is_unique_key w :
  reachable w ->
  (forall h, (count_hash h (table (conn w)) <= 1)%nat
             /\ (count_hash h (committed (conn w)) <= 1)%nat)
  /\ (forall batch, exists w', insert_hashes batch w = (Ret tt, w'))
  /\ (forall remote f n body,
        remote (clock w) (shard_url f) = Found body ->
        Py.int f = Some n ->
        fst (sync_step remote f w) = Ret (Some (Py.format_05d (n + 1)))).
Proof.
  intros Hr. apply reachable_unique in Hr as [Ht Hc].
  split; [|split].
  - intros h. split; now apply count_hash_unique.
  - intros batch. eexists. apply insert_hashes_run.
  - intros remote f n body Hf Hn. rewrite sync_step_run. cbv zeta.
    rewrite Hf, Hn. reflexivity.
Qed.

(** The empty store synchronised with shards 00000 and 00001, which both
    hold h1: the run returns and h1 is stored once. *)
Lemma hash_is_unique_key_witness :
  fst (download_files catalog_0_1 9 fresh_world) = Ret tt
  /\ count_hash "h1" (table (conn (snd (download_files catalog_0_1 9 fresh_world))))
     = 1%nat
  /\ forall h,
       (count_hash h (table (conn (snd (download_files catalog_0_1 9 fresh_world))))
        <= 1)%nat
       /\ (count_hash h
             (committed (conn (snd (download_files catalog_0_1 9 fresh_world))))
           <= 1)%nat.
Proof.
  split; [reflexivity|]. split; [reflexivity|].
  apply (hash_is_unique_key (snd (download_files catalog_0_1 9 fresh_world))).
  apply (reach_call _ fresh_world (CallDownloadFiles catalog_0_1 9)
           (fst (download_files catalog_0_1 9 fresh_world))).
  - apply reach_fresh.
  - reflexivity.
  - apply surjective_pairing.
Defined.

(** *** File numbers written by synchronisation *)

Lemma numbered_latest c : numbered c -> is_number (latest_file_nr (table c)).
Proof.
  unfold numbered, latest_file_nr. intros Hn.
  destruct (select_top_file_nr (table c)) as [v|] eqn:E.
  - apply select_top_is_max in E as [Hin _].
    apply in_map_iff in Hin as (r & Er & Hr).
    rewrite forallb_forall in Hn. apply Hn in Hr.
    unfold numbered_row in Hr. rewrite Er in Hr.
    destruct v as [s|]; [|discriminate]. cbn [py_str].
    destruct (Py.int s) as [n|] eqn:En; [|discriminate].
    exists n. split; [assumption|now apply Z.leb_le].
  - exists 0. split; [reflexivity|lia].
Qed.

Lemma is_number_next f n :
  is_number f -> Py.int f = Some n -> is_number (Py.format_05d (n + 1)).
Proof.
  intros (m & Hm & Hpos) Hn. assert (m = n) by congruence. subst m.
  exists (n + 1). split; [apply int_format_05d|lia].
Qed.

Lemma collect_hashes_numbered ls f :
  is_number f -> forallb numbered_row (collect_hashes ls f) = true.
Proof.
  intros (n & Hn & Hpos). induction ls as [|l ls IH]; [reflexivity|].
  cbn [collect_hashes]. destruct (negb _); [|assumption].
  cbn [forallb]. rewrite IH, andb_true_r.
  unfold numbered_row, file_nr_of. cbn [snd]. rewrite Hn. now apply Z.leb_le.
Qed.

Lemma executemany_forallb (p : row -> bool) batch : forall t,
  forallb p t = true -> forallb p batch = true ->
  forallb p (fst (executemany batch t)) = true.
Proof.
  induction batch as [|r rest IH]; intros t Ht Hb; [assumption|].
  cbn [forallb] in Hb. apply andb_true_iff in Hb as [Hr Hrest].
  cbn [executemany]. destruct (has_hash (hash_of r) t); [assumption|].
  apply IH; [|assumption].
  rewrite forallb_app, Ht. cbn. now rewrite Hr.
Qed.

Lemma after_insert_numbered body f c :
  is_number f -> numbered c -> numbered (after_insert (shard_records body f) c).
Proof.
  intros Hf Hc. unfold numbered, after_insert in *.
  pose proof (executemany_forallb numbered_row (shard_records body f) (table c)
                Hc (collect_hashes_numbered _ f Hf)) as H.
  destruct (executemany _ (table c)) as [t [e|]]; exact H.
Qed.

Lemma delete_hash_numbered h t :
  forallb numbered_row t = true -> forallb numbered_row (delete_hash h t) = true.
Proof.
  rewrite !forallb_forall. intros H r Hr.
  apply filter_In in Hr as [Hr _]. auto.
Qed.

#[local] Hint Resolve after_insert_numbered is_number_next numbered_latest : store.

Lemma run_call_numbered c w out w' :
  sync_call c = true ->
  numbered (conn w) -> run_call c w = (out, w') -> numbered (conn w').
Proof.
  intros Hc Hw H.
  destruct c as [|h f|b|h|remote fuel|remote fuel]; try discriminate;
    cbn [run_call] in H.
  - injection H as _ <-. exact Hw.
  - injection H as _ <-. now apply delete_hash_numbered.
  - eapply (download_files_invariant remote is_number numbered);
      eauto with store.
  - apply update_db_conn in H as [out' H].
    eapply (download_files_invariant remote is_number numbered);
      eauto with store.
Qed.

Lemma sync_reachable_numbered w : sync_reachable w -> numbered (conn w).
Proof.
  induction 1 as [clk lg|w c out w' _ IH Hc Hrun]; [reflexivity|].
  eapply run_call_numbered; eauto.
Qed.

Lemma latest_all_zero t :
  t <> [] -> (forall r, In r t -> file_nr_of r = Some "00000") ->
  latest_file_nr t = "00000".
Proof.
  intros Hne Hall. unfold latest_file_nr.
  destruct (select_top_nonempty _ Hne) as [v Hv]. rewrite Hv.
  apply select_top_is_max in Hv as [Hin _].
  apply in_map_iff in Hin as (r & <- & Hr). now rewrite (Hall _ Hr).
Qed.

(* ================================================================= *)
(** ** C10: the cursor of an empty store *)

(** C10, as the specification words it, fails in its last part: a row
    whose file number is NULL, written by [insert_hash] without a file
    number, makes [get_latest_file_nr] answer the text None; the
    comparison holds and the freshness check answers False without a
    request. *)
Lemma null_file_nr_reads_none :
  fst (get_latest_file_nr (snd (insert_hash "abc" None fresh_world)))
  = Ret "None"
  /\ db_is_updated catalog_0_1 (snd (insert_hash "abc" None fresh_world))
     = (Ret PyFalse, snd (insert_hash "abc" None fresh_world))
  /\ ~ none_check_is_dead (snd (insert_hash "abc" None fresh_world)).
Proof.
  split; [reflexivity|]. split; [reflexivity|].
  unfold none_check_is_dead. vm_compute. discriminate.
Qed.

(** C10, amended.  On an empty table the latest file number is 00000,
    the text the format gives to the first index 0.  The freshness check
    on an empty table therefore asks for 00001 and for nothing else.  A
    table whose rows all belong to shard 00000 gets the same answer from
    [get_latest_file_nr], and the same result, clock and log from the
    freshness check.  The comparison of the answer with the text None is
    false on an empty table and on every world that calls other than the
    two inserts reach from a fresh database; it holds exactly when the
    greatest file number of the table is NULL or the text None, and the
    freshness check then answers False and leaves the world as it was,
    without a request. *)
Theorem empty_store_cursor_is_first_index :
  (latest_file_nr [] = "00000" /\ Py.format_05d 0 = "00000")
  /\ (forall remote w,
        table (conn w) = [] ->
        fetched_urls (run_events w (snd (db_is_updated remote w)))
        = [shard_url "00001"]
        /\ shard_url "00001" <> shard_url "00000")
  /\ (forall t cm1 cm2 clk lg remote,
        t <> [] -> (forall r, In r t -> file_nr_of r = Some "00000") ->
        let w_rows := mkWorld (mkConn t cm1) clk lg in
        let w_empty := mkWorld (mkConn [] cm2) clk lg in
        fst (get_latest_file_nr w_rows) = fst (get_latest_file_nr w_empty)
        /\ fst (db_is_updated remote w_rows) = fst (db_is_updated remote w_empty)
        /\ clock (snd (db_is_updated remote w_rows))
           = clock (snd (db_is_updated remote w_empty))
        /\ log (snd (db_is_updated remote w_rows))
           = log (snd (db_is_updated remote w_empty)))
  /\ (forall w,
        table (conn w) = [] \/ sync_reachable w -> none_check_is_dead w)
  /\ (forall w,
        ~ none_check_is_dead w <->
        select_top_file_nr (table (conn w)) = Some None
        \/ select_top_file_nr (table (conn w)) = Some (Some "None"))
  /\ (forall remote w,
        ~ none_check_is_dead w ->
        db_is_updated remote w = (Ret PyFalse, w)).
Proof.
  split; [split; reflexivity|]. split; [|split; [|split; [|split]]].
  - intros remote w Hw. split.
    + rewrite db_is_updated_run, Hw. cbv zeta.
      change (latest_file_nr []) with "00000".
      change (String.eqb "00000" "None") with false. cbv iota.
      change (Py.int "00000") with (Some 0). cbv iota beta.
      change (Py.format_05d (0 + 1)) with "00001". cbn [snd].
      now rewrite (run_events_app _ _ [EvFetch (shard_url "00001")
                                         (remote (clock w) (shard_url "00001"))]).
    + intros E. apply shard_url_inj in E. discriminate.
  - intros t cm1 cm2 clk lg remote Hne Hall. cbv zeta.
    rewrite !get_latest_file_nr_run, !db_is_updated_run. cbn [conn table clock log].
    rewrite (latest_all_zero t Hne Hall).
    change (latest_file_nr []) with "00000". cbv zeta.
    change (String.eqb "00000" "None") with false. cbv iota.
    change (Py.int "00000") with (Some 0). cbv iota beta.
    repeat split; reflexivity.
  - unfold none_check_is_dead. intros w [Hw|Hw].
    + rewrite Hw. reflexivity.
    + apply sync_reachable_numbered, numbered_latest in Hw as (n & Hn & _).
      apply String.eqb_neq. intros E. rewrite E in Hn. discriminate.
  - intros w. unfold none_check_is_dead, latest_file_nr.
    destruct (select_top_file_nr (table (conn w))) as [[s|]|]; cbn [py_str].
    + rewrite String.eqb_neq. split.
      * intros H. right. destruct (string_dec s "None") as [->|E];
          [reflexivity|contradiction].
      * intros [H|H]; [discriminate|]. injection H as ->. auto.
    + split; [auto|]. intros _. discriminate.
    + split; [intros H; now contradiction H|]. intros [H|H]; discriminate.
  - intros remote w Hw. rewrite db_is_updated_run. cbv zeta.
    unfold none_check_is_dead in Hw.
    destruct (String.eqb _ "None"); [reflexivity|now contradiction Hw].
Qed.

(** After the empty store has been synchronised with shards 00000 and
    00001 the answer is 00001 and the comparison is false. *)
Lemma empty_store_cursor_is_first_index_witness :
  latest_file_nr
    (table (conn (snd (update_db catalog_0_1 9 fresh_world)))) = "00001"
  /\ none_check_is_dead (snd (update_db catalog_0_1 9 fresh_world)).
Proof.
  split; [reflexivity|].
  apply (proj1 (proj2 (proj2 (proj2 empty_store_cursor_is_first_index)))).
  right.
  apply (reach_call _ fresh_world (CallUpdateDb catalog_0_1 9)
           (fst (update_db catalog_0_1 9 fresh_world))).
  - apply reach_fresh.
  - reflexivity.
  - apply surjective_pairing.
Defined.

(* ================================================================= *)
(** ** Lines of a shard *)

Lemma string_append_assoc a b c : (a ++ b) ++ c = a ++ (b ++ c).
Proof. induction a as [|x a IH]; cbn; congruence. Qed.

Lemma prefix_cons a s b t :
  String.prefix (String a s) (String b t)
  = if Ascii.eqb a b then String.prefix s t else false.
Proof.
  cbn [String.prefix]. destruct (ascii_dec a b) as [E|E].
  - subst. now rewrite Ascii.eqb_refl.
  - apply Ascii.eqb_neq in E. now rewrite E.
Qed.

Lemma plain_byte_facts b :
  plain_byte b = true ->
  Py.repr_byte Py.squote b = String (ascii_of_byte b) EmptyString
  /\ Py.byte_is Py.squote b = false
  /\ Py.is_newline b = false
  /\ Ascii.eqb (ascii_of_byte b) Py.squote = false
  /\ Ascii.eqb (ascii_of_byte b) Py.backslash = false.
Proof.
  destruct b; intros H; try discriminate H; clear H; vm_compute; auto.
Qed.

Lemma text_of_cons b l :
  text_of (b :: l) = String (ascii_of_byte b) (text_of l).
Proof. reflexivity. Qed.

Lemma plain_text_of l :
  forallb plain_byte l = true -> plain_text (text_of l) = true.
Proof.
  induction l as [|b l IH]; intros H; [reflexivity|].
  cbn [forallb] in H. apply andb_true_iff in H as [Hb Hl].
  destruct (plain_byte_facts b Hb) as (_ & _ & _ & Hq & Hs).
  rewrite text_of_cons. cbn [plain_text]. now rewrite Hq, Hs, IH.
Qed.

Lemma repr_quote_plain l :
  forallb plain_byte l = true -> Py.repr_quote (l ++ [newline]) = Py.squote.
Proof.
  intros H. unfold Py.repr_quote.
  assert (E : existsb (Py.byte_is Py.squote) (l ++ [newline]) = false).
  { induction l as [|b l IH]; [reflexivity|].
    cbn [forallb] in H. apply andb_true_iff in H as [Hb Hl].
    destruct (plain_byte_facts b Hb) as (_ & Hq & _).
    cbn [app existsb]. now rewrite Hq, IH. }
  now rewrite E.
Qed.

Lemma concat_cons x xs :
  xs <> [] -> String.concat EmptyString (x :: xs)
              = x ++ String.concat EmptyString xs.
Proof. destruct xs; [congruence|reflexivity]. Qed.

Lemma repr_content_plain l :
  forallb plain_byte l = true ->
  String.concat EmptyString (map (Py.repr_byte Py.squote) (l ++ [newline]))
  = text_of l ++ String Py.backslash "n".
Proof.
  induction l as [|b l IH]; intros H; [reflexivity|].
  cbn [forallb] in H. apply andb_true_iff in H as [Hb Hl].
  destruct (plain_byte_facts b Hb) as (Hr & _).
  cbn [app map]. rewrite concat_cons.
  - rewrite Hr, (IH Hl), text_of_cons. reflexivity.
  - destruct l; discriminate.
Qed.

(** [str] of a plain line that ends with a line feed. *)
Lemma str_of_plain_line l :
  forallb plain_byte l = true ->
  Py.str_of_bytes (l ++ [newline])
  = String "b" (String Py.squote
      (text_of l ++ String Py.backslash (String "n" (String Py.squote EmptyString)))).
Proof.
  intros H. unfold Py.str_of_bytes.
  rewrite (repr_quote_plain l H), (repr_content_plain l H).
  now rewrite string_append_assoc.
Qed.

Lemma remove_prefix_after_b x :
  Py.remove_all (String "b" (String Py.squote EmptyString))
    (String "b" (String Py.squote x))
  = Py.remove_from (String "b" (String Py.squote EmptyString)) 0 x.
Proof.
  unfold Py.remove_all. cbn [Py.remove_from].
  rewrite prefix_cons, Ascii.eqb_refl.
  destruct x as [|c x]; [reflexivity|].
  rewrite prefix_cons, Ascii.eqb_refl. reflexivity.
Qed.

Lemma remove_b_quote_plain s :
  plain_text s = true ->
  Py.remove_from (String "b" (String Py.squote EmptyString)) 0
    (s ++ String Py.backslash (String "n" (String Py.squote EmptyString)))
  = s ++ String Py.backslash (String "n" (String Py.squote EmptyString)).
Proof.
  induction s as [|c t IH]; intros H; [reflexivity|].
  cbn [plain_text] in H. apply andb_true_iff in H as [_ Ht].
  cbn [String.append Py.remove_from]. rewrite prefix_cons.
  assert (E : (if Ascii.eqb "b" c
               then String.prefix (String Py.squote EmptyString)
                      (t ++ String Py.backslash (String "n" (String Py.squote EmptyString)))
               else false) = false).
  { destruct (Ascii.eqb "b" c); [|reflexivity].
    destruct t as [|c' t']; [reflexivity|].
    cbn [String.append]. rewrite prefix_cons.
    cbn [plain_text] in Ht. apply andb_true_iff in Ht as [Hc' _].
    apply andb_true_iff in Hc' as [Hq _]. apply negb_true_iff in Hq.
    rewrite Ascii.eqb_sym, Hq. reflexivity. }
  rewrite E, (IH Ht). reflexivity.
Qed.

Lemma remove_newline_quote_plain s :
  plain_text s = true ->
  Py.remove_from (String Py.backslash (String "n" (String Py.squote EmptyString))) 0
    (s ++ String Py.backslash (String "n" (String Py.squote EmptyString)))
  = s.
Proof.
  induction s as [|c t IH]; intros H; [reflexivity|].
  cbn [plain_text] in H. apply andb_true_iff in H as [Hc Ht].
  apply andb_true_iff in Hc as [_ Hs]. apply negb_true_iff in Hs.
  cbn [String.append Py.remove_from]. rewrite prefix_cons.
  rewrite Ascii.eqb_sym, Hs, (IH Ht). reflexivity.
Qed.

(** The text the loop keeps of a plain line is the line itself. *)
Lemma line_text_plain l :
  forallb plain_byte l = true -> line_text (l ++ [newline]) = text_of l.
Proof.
  intros H. unfold line_text.
  rewrite (str_of_plain_line l H), remove_prefix_after_b.
  pose proof (plain_text_of l H) as Hp.
  rewrite (remove_b_quote_plain _ Hp). unfold Py.remove_all.
  apply (remove_newline_quote_plain _ Hp).
Qed.

Lemma lines_from_plain l : forall cur rest,
  forallb plain_byte l = true ->
  Py.lines_from cur (l ++ newline :: rest)
  = (rev cur ++ l ++ [newline])%list :: Py.lines_from [] rest.
Proof.
  induction l as [|b l IH]; intros cur rest H; [reflexivity|].
  cbn [forallb] in H. apply andb_true_iff in H as [Hb Hl].
  destruct (plain_byte_facts b Hb) as (_ & _ & Hnl & _).
  cbn [app Py.lines_from]. rewrite Hnl, (IH _ _ Hl).
  cbn [rev]. now rewrite <- app_assoc.
Qed.

Lemma readlines_plain ls :
  Forall (fun l => forallb plain_byte l = true) ls ->
  Py.readlines (body_of_lines ls) = map (fun l => (l ++ [newline])%list) ls.
Proof.
  unfold Py.readlines, body_of_lines.
  induction 1 as [|l ls Hl _ IH]; [reflexivity|].
  cbn [map List.concat]. rewrite <- app_assoc. cbn [app].
  now rewrite (lines_from_plain l [] _ Hl), IH.
Qed.

(* ================================================================= *)
(** ** C8: which lines become records *)

(** C8, as the specification words it, fails: the shard that consists
    of one empty line yields a record, with the empty text as hash. *)
Lemma empty_line_becomes_record :
  shard_records [newline] "00000" = [(EmptyString, Some "00000")]
  /\ ~ parsed_as_specified [newline] "00000".
Proof.
  split; [reflexivity|]. unfold parsed_as_specified.
  vm_compute. discriminate.
Qed.

(** C8, amended.  For a shard made of lines of printable ASCII without
    apostrophe or backslash, each closed by a line feed: a line that
    begins with the comment marker yields no record, and every other
    line, an empty one included, yields one record, in order, whose
    hash is the text of the line and whose file number is that of the
    shard. *)
Theorem plain_lines_become_records ls file_nr :
  Forall (fun l => forallb plain_byte l = true) ls ->
  shard_records (body_of_lines ls) file_nr
  = map (fun l => (text_of l, Some file_nr))
      (filter (fun l => negb (Py.startswith "#" (text_of l))) ls).
Proof.
  intros H. unfold shard_records. rewrite (readlines_plain ls H).
  induction H as [|l ls Hl _ IH]; [reflexivity|].
  cbn [map collect_hashes filter]. rewrite (line_text_plain l Hl).
  destruct (negb _); cbn [map]; now rewrite IH.
Qed.

(** A heading, two hashes and an empty line. *)
Lemma plain_lines_become_records_witness :
  shard_records (lines ["# list"; "h1"; EmptyString; "h2"]) "00007"
  = [("h1", Some "00007"); (EmptyString, Some "00007"); ("h2", Some "00007")].
Proof.
  apply (plain_lines_become_records
           (map list_byte_of_string ["# list"; "h1"; EmptyString; "h2"]) "00007").
  repeat constructor.
Defined.

(** What the amended statement leaves out: the text kept of a line is
    taken from the printed form of the bytes, so a comment line that
    holds an apostrophe is printed between double quotes, no longer
    begins with the marker and is stored; and a last line without line
    feed keeps the closing quote. *)
Lemma quoted_lines_are_kept_verbatim :
  map hash_of (shard_records (lines ["# don't edit"]) "00000")
  = [String "b" (String Py.dquote
       ("# don't edit\n" ++ String Py.dquote EmptyString))]
  /\ map hash_of (shard_records (list_byte_of_string "abc") "00000") = ["abc'"].
Proof. split; reflexivity. Qed.

(* ================================================================= *)
(** * Further properties of the class *)

(** ** Single inserts, lookups and deletions *)

Lemma connection_eta c : mkConn (table c) (committed c) = c.
Proof. now destruct c. Qed.

(** [insert_hash] with a hash the connection does not hold: the row is
    appended, the lookup finds it, and the commit makes the whole of the
    visible table durable, changes left pending by earlier calls
    included. *)
Theorem insert_hash_new_commits_all h f w :
  has_hash h (table (conn w)) = false ->
  let w' := snd (insert_hash h f w) in
  fst (insert_hash h f w) = Ret tt
  /\ table (conn w') = (table (conn w) ++ [(h, f)])%list
  /\ committed (conn w') = table (conn w')
  /\ hash_exists h w' = (Ret true, w').
Proof.
  intros Hnew. cbv zeta. rewrite insert_hash_run. cbn [fst snd conn].
  unfold after_insert. cbn [executemany]. change (hash_of (h, f)) with h.
  rewrite Hnew. cbn [executemany table committed].
  split; [reflexivity|]. split; [reflexivity|]. split; [reflexivity|].
  unfold hash_exists, bind, get_conn, ret. cbn [conn table].
  rewrite has_hash_app. cbn [has_hash existsb hash_of fst].
  now rewrite String.eqb_refl, orb_true_r.
Qed.

Lemma insert_hash_new_commits_all_witness :
  let w := snd (remove_hash "a" (stored [("a", Some "00000"); ("b", Some "00000")])) in
  let w' := snd (insert_hash "c" (Some "00004") w) in
  fst (insert_hash "c" (Some "00004") w) = Ret tt
  /\ table (conn w') = (table (conn w) ++ [("c", Some "00004")])%list
  /\ committed (conn w') = table (conn w')
  /\ hash_exists "c" w' = (Ret true, w').
Proof.
  apply (insert_hash_new_commits_all "c" (Some "00004")
           (snd (remove_hash "a" (stored [("a", Some "00000"); ("b", Some "00000")])))).
  reflexivity.
Defined.

(** [insert_hash] with a hash the connection already holds: the error
    of the engine is absorbed, nothing is committed and the connection
    is left as it was; the stored row keeps its file number. *)
Theorem insert_hash_present_is_noop h f w :
  has_hash h (table (conn w)) = true ->
  insert_hash h f w = (Ret tt, w).
Proof.
  intros Hold. rewrite insert_hash_run.
  unfold after_insert. cbn [executemany]. change (hash_of (h, f)) with h.
  rewrite Hold, connection_eta. now destruct w.
Qed.

Lemma insert_hash_present_is_noop_witness :
  insert_hash "a" (Some "00009") (stored [("a", Some "00000")])
  = (Ret tt, stored [("a", Some "00000")]).
Proof.
  apply (insert_hash_present_is_noop "a" (Some "00009") (stored [("a", Some "00000")])).
  reflexivity.
Defined.

Lemma has_hash_delete h h' t :
  has_hash h' (delete_hash h t)
  = negb (String.eqb h' h) && has_hash h' t.
Proof.
  unfold has_hash, delete_hash.
  induction t as [|r t IH]; [now rewrite andb_false_r|].
  cbn [filter existsb].
  destruct (String.eqb_spec (hash_of r) h) as [E|E]; cbn [negb existsb].
  - rewrite IH. destruct (String.eqb_spec h' h) as [E'|E']; cbn [negb andb].
    + reflexivity.
    + destruct (String.eqb_spec (hash_of r) h') as [E2|_]; [congruence|reflexivity].
  - rewrite IH. destruct (String.eqb_spec (hash_of r) h') as [E2|_]; cbn [orb].
    + subst h'. destruct (String.eqb_spec (hash_of r) h); [contradiction|reflexivity].
    + reflexivity.
Qed.

(** [remove_hash]: the hash is no longer found, the lookup of every
    other hash answers as before, and the call does not commit: the
    committed rows are the ones of before. *)
Theorem remove_hash_hides_uncommitted h w :
  let w' := snd (remove_hash h w) in
  fst (remove_hash h w) = Ret tt
  /\ fst (hash_exists h w') = Ret false
  /\ (forall h', h' <> h ->
        fst (hash_exists h' w') = fst (hash_exists h' w))
  /\ committed (conn w') = committed (conn w).
Proof.
  cbv zeta. unfold remove_hash, hash_exists, bind, get_conn, set_conn, ret.
  cbn [fst snd conn table committed].
  split; [reflexivity|]. split; [|split; [|reflexivity]].
  - rewrite has_hash_delete, String.eqb_refl. reflexivity.
  - intros h' Hne. rewrite has_hash_delete.
    apply String.eqb_neq in Hne. now rewrite Hne.
Qed.

(** ** Counting *)

Lemma int_digits n : 0 <= n -> Py.int (Py.digits n) = Some n.
Proof.
  intros Hn. apply int_of_digit_string. unfold Py.unsigned_value.
  pose proof (digits_nonempty n) as Hne.
  destruct (Py.digits n) eqn:E; [congruence|].
  rewrite <- E. now apply digits_value_digits.
Qed.

(** [count_hashes] changes nothing and its text reads back, through
    [int], as the number of visible rows. *)
Theorem count_hashes_reads_back w :
  exists s, count_hashes w = (Ret s, w)
            /\ Py.int s = Some (Z.of_nat (List.length (table (conn w)))).
Proof.
  eexists. split; [reflexivity|]. apply int_digits. lia.
Qed.

(** ** Batches *)

(** Whatever the batch, [insert_hashes] returns normally and makes
    visible the longest prefix of the batch whose hashes are new.  When
    that is the whole batch the call commits; when a record is rejected
    the prefix stays visible without being committed by this call, and
    the rejected record and those after it are not inserted. *)
Theorem insert_hashes_keeps_prefix batch w :
  exists k w',
    insert_hashes batch w = (Ret tt, w')
    /\ (k <= List.length batch)%nat
    /\ table (conn w') = (table (conn w) ++ firstn k batch)%list
    /\ (forall j r, nth_error batch j = Some r -> (j < k)%nat ->
          has_hash (hash_of r) (table (conn w) ++ firstn j batch) = false)
    /\ (k = List.length batch -> committed (conn w') = table (conn w'))
    /\ (forall r, nth_error batch k = Some r ->
          has_hash (hash_of r) (table (conn w')) = true
          /\ committed (conn w') = committed (conn w)).
Proof.
  destruct (executemany_prefix batch (table (conn w)))
    as (k & Hk & Hfst & Hacc & Hall & Hrej).
  exists k. eexists. split; [apply insert_hashes_run|].
  cbn [conn]. unfold after_insert.
  destruct (executemany batch (table (conn w))) as [t e] eqn:E.
  cbn [fst snd] in *. subst t.
  split; [now destruct e|]. split; [now destruct e|].
  split; [assumption|]. split.
  - intros Hlen. rewrite (Hall Hlen). reflexivity.
  - intros r Hnth. apply Hrej in Hnth as [Hdup ->]. cbn [table committed].
    auto.
Qed.

(** The batch b, a, c on a store that holds a: the prefix of length one
    is kept and nothing is committed. *)
Lemma insert_hashes_keeps_prefix_witness :
  exists k w',
    insert_hashes [("b", Some "00001"); ("a", Some "00001"); ("c", Some "00001")]
      (stored [("a", Some "00000")]) = (Ret tt, w')
    /\ (k <= 3)%nat
    /\ table (conn w') = ([("a", Some "00000")]
                          ++ firstn k [("b", Some "00001"); ("a", Some "00001");
                                       ("c", Some "00001")])%list
    /\ (forall j r,
          nth_error [("b", Some "00001"); ("a", Some "00001"); ("c", Some "00001")] j
          = Some r ->
          (j < k)%nat ->
          has_hash (hash_of r)
            ([("a", Some "00000")]
               ++ firstn j [("b", Some "00001"); ("a", Some "00001");
                            ("c", Some "00001")]) = false)
    /\ (k = 3%nat -> committed (conn w') = table (conn w'))
    /\ (forall r,
          nth_error [("b", Some "00001"); ("a", Some "00001"); ("c", Some "00001")] k
          = Some r ->
          has_hash (hash_of r) (table (conn w')) = true
          /\ committed (conn w') = [("a", Some "00000")]).
Proof.
  exact (insert_hashes_keeps_prefix
           [("b", Some "00001"); ("a", Some "00001"); ("c", Some "00001")]
           (stored [("a", Some "00000")])).
Defined.

(** A batch whose hashes are pairwise distinct and new to the connection
    is stored whole, in order, and committed. *)
Theorem clean_batch_is_stored_whole batch w :
  NoDup (hashes (table (conn w) ++ batch)) ->
  let w' := snd (insert_hashes batch w) in
  fst (insert_hashes batch w) = Ret tt
  /\ table (conn w') = (table (conn w) ++ batch)%list
  /\ committed (conn w') = table (conn w').
Proof.
  intros Hnd. cbv zeta. rewrite insert_hashes_run. cbn [fst snd conn].
  unfold after_insert. rewrite (executemany_clean _ _ Hnd).
  repeat split.
Qed.

Lemma clean_batch_is_stored_whole_witness :
  let w := stored [("a", Some "00000")] in
  let batch := [("b", Some "00001"); ("c", Some "00001")] in
  let w' := snd (insert_hashes batch w) in
  fst (insert_hashes batch w) = Ret tt
  /\ table (conn w') = (table (conn w) ++ batch)%list
  /\ committed (conn w') = table (conn w').
Proof.
  apply (clean_batch_is_stored_whole
           [("b", Some "00001"); ("c", Some "00001")]
           (stored [("a", Some "00000")])).
  repeat constructor; cbn; intuition discriminate.
Defined.

(** ** What a synchronisation run does to the store *)

Lemma after_insert_extends batch c :
  exists added, table (after_insert batch c) = (table c ++ added)%list.
Proof.
  destruct (executemany_prefix batch (table c)) as (k & _ & Hfst & _).
  exists (firstn k batch). unfold after_insert.
  destruct (executemany batch (table c)) as [t [e|]]; exact Hfst.
Qed.

(** A run only appends: the rows visible before it are still there, in
    place and unchanged, whatever the catalog answers and however the
    run ends; so a hash that was found before is found after. *)
Theorem sync_only_appends remote fuel w :
  let w' := snd (update_db remote fuel w) in
  exists added,
    table (conn w') = (table (conn w) ++ added)%list
    /\ forall h, fst (hash_exists h w) = Ret true ->
                 fst (hash_exists h w') = Ret true.
Proof.
  cbv zeta.
  destruct (update_db remote fuel w) as [out w'] eqn:E. cbn [snd].
  apply update_db_conn in E as [out' E].
  assert (H : exists added, table (conn w') = (table (conn w) ++ added)%list).
  { apply (download_files_invariant remote (fun _ => True)
             (fun c => exists added, table c = (table (conn w) ++ added)%list))
      with (fuel := fuel) (w := w) (out := out'); auto.
    - intros f body c _ [a Ha].
      destruct (after_insert_extends (shard_records body f) c) as [b Hb].
      exists (a ++ b)%list. now rewrite Hb, Ha, app_assoc.
    - exists []. now rewrite app_nil_r. }
  destruct H as [added H]. exists added. split; [assumption|].
  intros h. unfold hash_exists, bind, get_conn, ret. cbn [fst].
  rewrite H, has_hash_app. intros [= ->]. reflexivity.
Qed.

(** The freshness check reads only: the connection is left as it was, no
    batch is inserted and at most one request is made. *)
Theorem freshness_check_reads_only remote w :
  let w' := snd (db_is_updated remote w) in
  conn w' = conn w
  /\ inserted_batches (run_events w w') = []
  /\ (List.length (fetched_urls (run_events w w')) <= 1)%nat.
Proof.
  cbv zeta. rewrite db_is_updated_run. cbv zeta.
  assert (Hnil : run_events w w = []).
  { unfold run_events. now rewrite skipn_all. }
  destruct (String.eqb _ "None").
  { cbn [snd]. rewrite Hnil. cbn. repeat split. lia. }
  destruct (Py.int _) as [n|].
  2:{ cbn [snd]. rewrite Hnil. cbn. repeat split. lia. }
  cbn [snd conn].
  rewrite (run_events_app _ _ [EvFetch _ _]) by reflexivity.
  cbn. repeat split. lia.
Qed.

(** No network at the probe: the run is taken for up to date.  It
    returns normally after the one request and inserts nothing. *)
Theorem offline_probe_is_up_to_date remote fuel w n :
  Py.int (latest_file_nr (table (conn w))) = Some n ->
  remote (clock w) (shard_url (Py.format_05d (n + 1))) = Unreachable ->
  update_db remote fuel w
  = (Ret tt,
     mkWorld (conn w) (S (clock w))
       (log w ++ [EvFetch (shard_url (Py.format_05d (n + 1))) Unreachable])).
Proof.
  intros Hn Hr.
  rewrite update_db_run, download_files_run, db_is_updated_run. cbv zeta.
  destruct (String.eqb _ "None") eqn:Enone.
  { apply String.eqb_eq in Enone. rewrite Enone in Hn. discriminate. }
  rewrite Hn, Hr. reflexivity.
Qed.

Lemma offline_probe_is_up_to_date_witness :
  update_db catalog_offline 9 (stored three_rows)
  = (Ret tt,
     mkWorld (conn (stored three_rows)) (S (clock (stored three_rows)))
       (log (stored three_rows)
          ++ [EvFetch (shard_url (Py.format_05d (2 + 1))) Unreachable])).
Proof.
  apply (offline_probe_is_up_to_date catalog_offline 9 (stored three_rows) 2);
    reflexivity.
Defined.

(** The way a trace goes on after a request, by the kind of answer. *)
Lemma loop_trace_after_answer remote t f evs out :
  loop_trace remote t f evs out ->
  forall pre url r post,
    evs = (pre ++ EvFetch url r :: post)%list ->
    match r with
    | HttpStatus _ => post = [] /\ out = Ret tt
    | Unreachable => post = [] /\ out = Raise URLError
    | Found body =>
        exists f' post', url = shard_url f'
                         /\ post = EvInsert (shard_records body f') :: post'
    end.
Proof.
  induction 1 as [t f|t f c Hr|t f Hr|t f body Hr Hn|t f body n evs out Hr Hn Htr IH];
    intros pre url r post E.
  - destruct pre; discriminate.
  - destruct pre as [|e pre]; [|destruct pre; discriminate].
    cbn [app] in E. injection E as E1 E2 E3. subst url r post. auto.
  - destruct pre as [|e pre]; [|destruct pre; discriminate].
    cbn [app] in E. injection E as E1 E2 E3. subst url r post. auto.
  - destruct pre as [|e [|e' pre]]; try discriminate.
    + cbn [app] in E. injection E as E1 E2 E3. subst url r post. eauto.
    + destruct pre; discriminate.
  - destruct pre as [|e [|e' pre]]; try discriminate.
    + cbn [app] in E. injection E as E1 E2 E3. subst url r post. eauto.
    + injection E as _ _ E. exact (IH _ _ _ _ E).
Qed.

(** How the loop goes on after a request.  Any HTTP status, 404 or not,
    ends the loop with a normal return and nothing after it; a network
    failure ends it with URLError on its way to the caller; a response
    is followed by the insert of the records of that shard. *)
Theorem loop_goes_on_by_answer remote fuel f w pre url r post :
  run_events w (snd (sync_loop remote fuel f w))
  = (pre ++ EvFetch url r :: post)%list ->
  match r with
  | HttpStatus _ => post = [] /\ fst (sync_loop remote fuel f w) = Ret tt
  | Unreachable => post = [] /\ fst (sync_loop remote fuel f w) = Raise URLError
  | Found body =>
      exists f' post', url = shard_url f'
                       /\ post = EvInsert (shard_records body f') :: post'
  end.
Proof.
  destruct (sync_loop remote fuel f w) as [out w'] eqn:E. cbn [fst snd].
  intros Hev.
  apply sync_loop_trace in E as (evs & Hlog & Htr).
  rewrite (run_events_app _ _ _ Hlog) in Hev.
  exact (loop_trace_after_answer _ _ _ _ _ Htr _ _ _ _ Hev).
Qed.

Lemma loop_goes_on_by_answer_witness :
  ([] : list event) = []
  /\ fst (sync_loop catalog_drops 9 "00000" fresh_world) = Raise URLError.
Proof.
  apply (loop_goes_on_by_answer catalog_drops 9 "00000" fresh_world
           [EvFetch (shard_url "00000") (Found (lines ["h9"]));
            EvInsert [("h9", Some "00000")]]
           (shard_url "00001") Unreachable []).
  reflexivity.
Defined.

Lemma indices_from_nodup k : forall m,
  NoDup (map shard_url (indices_from m k)).
Proof.
  induction k as [|k IH]; intros m; [constructor|].
  cbn [indices_from map]. constructor; [|apply IH].
  intros Hin. apply in_map_iff in Hin as (s & E & Hin).
  apply shard_url_inj in E. subst s.
  apply indices_from_number in Hin as (i & Hi & Hs).
  rewrite int_format_05d in Hs. injection Hs as Hs. lia.
Qed.

(** The loop never asks for the same file twice in a run. *)
Theorem loop_never_repeats_a_request remote fuel f w n :
  Py.int f = Some n ->
  NoDup (fetched_urls (run_events w (snd (sync_loop remote fuel f w)))).
Proof.
  intros Hn. destruct (sync_loop remote fuel f w) as [out w'] eqn:E. cbn [snd].
  apply sync_loop_trace in E as (evs & Hlog & Htr).
  rewrite (run_events_app _ _ _ Hlog).
  rewrite (loop_trace_urls _ _ _ _ _ Htr n Hn).
  destruct (List.length (fetched_urls evs)) as [|k]; [constructor|].
  cbn [loop_urls]. constructor; [|apply indices_from_nodup].
  intros Hin. apply in_map_iff in Hin as (s & Es & Hin).
  apply shard_url_inj in Es. subst s.
  apply indices_from_number in Hin as (i & Hi & Hs).
  assert (i = n) by congruence. lia.
Qed.

Lemma loop_never_repeats_a_request_witness :
  NoDup (fetched_urls
           (run_events fresh_world
              (snd (sync_loop catalog_0_1 9 "00000" fresh_world)))).
Proof.
  apply (loop_never_repeats_a_request catalog_0_1 9 "00000" fresh_world 0).
  reflexivity.
Defined.

(** ** The cursor after a turn of the loop *)

Lemma value_leb_antisym a b :
  value_leb a b = true -> value_leb b a = true -> a = b.
Proof.
  destruct a as [x|], b as [y|]; cbn; try congruence.
  intros H1 H2. f_equal. now apply String.leb_antisym.
Qed.

Lemma collect_hashes_file_nr ls f r :
  In r (collect_hashes ls f) ->
  file_nr_of r = Some f /\ Py.startswith "#" (hash_of r) = false.
Proof.
  induction ls as [|l ls IH]; [contradiction|].
  cbn [collect_hashes]. destruct (Py.startswith "#" (line_text l)) eqn:E;
    cbn [negb]; [exact IH|].
  intros [<-|Hin]; [split; [reflexivity|exact E]|auto].
Qed.

(** Whatever the bytes of a shard, every record made of it carries the
    file number of the shard and a hash that does not begin with the
    comment marker. *)
Theorem records_carry_the_file_number body file_nr r :
  In r (shard_records body file_nr) ->
  file_nr_of r = Some file_nr /\ Py.startswith "#" (hash_of r) = false.
Proof. apply collect_hashes_file_nr. Qed.

Lemma records_carry_the_file_number_witness :
  file_nr_of ("h2", Some "00007") = Some "00007"
  /\ Py.startswith "#" (hash_of ("h2", Some "00007")) = false.
Proof.
  apply (records_carry_the_file_number (lines ["# list"; "h1"; "h2"]) "00007").
  right. left. reflexivity.
Defined.

Lemma in_firstn {A} (x : A) k l : In x (firstn k l) -> In x l.
Proof.
  intros H. rewrite <- (firstn_skipn k l). apply in_or_app. now left.
Qed.

Lemma latest_of_greatest t f :
  In (Some f) (map file_nr_of t) ->
  (forall r, In r t -> value_leb (file_nr_of r) (Some f) = true) ->
  latest_file_nr t = f.
Proof.
  intros Hin Hle. unfold latest_file_nr.
  assert (Hne : t <> []) by (destruct t; [contradiction|discriminate]).
  destruct (select_top_nonempty _ Hne) as [v Hv]. rewrite Hv.
  apply select_top_is_max in Hv as [Hvin Hmax].
  apply in_map_iff in Hvin as (r & <- & Hr).
  rewrite (value_leb_antisym (file_nr_of r) (Some f)); auto.
Qed.

(** The cursor after a turn that stored a record of its shard. *)
Lemma sync_step_cursor remote f w body r rest :
  remote (clock w) (shard_url f) = Found body ->
  shard_records body f = r :: rest ->
  has_hash (hash_of r) (table (conn w)) = false ->
  (forall r', In r' (table (conn w)) ->
              value_leb (file_nr_of r') (Some f) = true) ->
  latest_file_nr (table (conn (snd (sync_step remote f w)))) = f.
Proof.
  intros Hr Hrec Hnew Hle. rewrite sync_step_run. cbv zeta. rewrite Hr.
  cbn [snd conn]. rewrite Hrec.
  assert (Hrows : forall x, In x (r :: rest) -> file_nr_of x = Some f).
  { intros x Hx. rewrite <- Hrec in Hx.
    now apply collect_hashes_file_nr in Hx. }
  destruct (executemany_prefix (r :: rest) (table (conn w)))
    as (k & _ & Hfst & _ & _ & Hrej).
  assert (Htab : table (after_insert (r :: rest) (conn w))
                 = (table (conn w) ++ firstn k (r :: rest))%list).
  { unfold after_insert.
    destruct (executemany (r :: rest) (table (conn w))) as [t [e|]]; exact Hfst. }
  rewrite Htab.
  destruct k as [|k].
  { destruct (Hrej r eq_refl) as [Hdup _]. cbn [firstn] in Hdup.
    rewrite app_nil_r in Hdup. congruence. }
  apply latest_of_greatest.
  - rewrite map_app. apply in_or_app. right. cbn [firstn map]. left.
    apply Hrows. now left.
  - intros x Hx. apply in_app_or in Hx as [Hx|Hx]; [auto|].
    apply in_firstn in Hx. rewrite (Hrows x Hx). apply value_leb_refl.
Qed.

(** A turn of the loop at a file number that reads as [n] moves the
    cursor to that file number when the first record of the shard is
    new and no stored file number comes after that of the shard in the
    order of the column; a freshness check on the connection it leaves
    then asks for index [n+1] and for nothing else, whatever the
    catalog. *)
Theorem cursor_moves_to_stored_shard remote f n w body r rest :
  remote (clock w) (shard_url f) = Found body ->
  shard_records body f = r :: rest ->
  has_hash (hash_of r) (table (conn w)) = false ->
  (forall r', In r' (table (conn w)) ->
              value_leb (file_nr_of r') (Some f) = true) ->
  Py.int f = Some n ->
  latest_file_nr (table (conn (snd (sync_step remote f w)))) = f
  /\ forall remote' w',
       conn w' = conn (snd (sync_step remote f w)) ->
       fetched_urls (run_events w' (snd (db_is_updated remote' w')))
       = [shard_url (Py.format_05d (n + 1))].
Proof.
  intros Hr Hrec Hnew Hle Hn.
  pose proof (sync_step_cursor remote f w body r rest Hr Hrec Hnew Hle) as Hcur.
  split; [exact Hcur|].
  intros remote' w' Hc. rewrite db_is_updated_run, Hc, Hcur. cbv zeta.
  destruct (String.eqb f "None") eqn:E.
  { apply String.eqb_eq in E. subst f. vm_compute in Hn. discriminate. }
  rewrite Hn. cbn [snd].
  now rewrite (run_events_app _ _
                 [EvFetch (shard_url (Py.format_05d (n + 1)))
                    (remote' (clock w') (shard_url (Py.format_05d (n + 1))))]).
Qed.

Lemma cursor_moves_to_stored_shard_witness :
  latest_file_nr
    (table (conn (snd (sync_step catalog_3_4 "00004"
                         (stored [("aa", Some "00003")]))))) = "00004"
  /\ forall remote' w',
       conn w' = conn (snd (sync_step catalog_3_4 "00004"
                              (stored [("aa", Some "00003")]))) ->
       fetched_urls (run_events w' (snd (db_is_updated remote' w')))
       = [shard_url (Py.format_05d (4 + 1))].
Proof.
  apply (cursor_moves_to_stored_shard catalog_3_4 "00004" 4
           (stored [("aa", Some "00003")]) (lines ["bb"])
           ("bb", Some "00004") []).
  - reflexivity.
  - reflexivity.
  - reflexivity.
  - intros r' [<-|[]]. reflexivity.
  - reflexivity.
Defined.

(** A shard whose first record is a hash already stored leaves no trace:
    the whole batch is dropped, the connection is as before, and the
    loop goes on to the next file number.  This is what happens to the
    cursor shard at the start of every later run. *)
Theorem known_first_hash_drops_the_shard remote f w body r rest n :
  remote (clock w) (shard_url f) = Found body ->
  shard_records body f = r :: rest ->
  has_hash (hash_of r) (table (conn w)) = true ->
  Py.int f = Some n ->
  sync_step remote f w
  = (Ret (Some (Py.format_05d (n + 1))),
     mkWorld (conn w) (S (clock w))
       (log w ++ [EvFetch (shard_url f) (Found body); EvInsert (r :: rest)])).
Proof.
  intros Hr Hrec Hdup Hn. rewrite sync_step_run. cbv zeta.
  rewrite Hr, Hn, Hrec. unfold after_insert. cbn [executemany].
  now rewrite Hdup, connection_eta.
Qed.

Lemma known_first_hash_drops_the_shard_witness :
  sync_step catalog_3_4 "00003" (stored [("aa", Some "00003")])
  = (Ret (Some (Py.format_05d (3 + 1))),
     mkWorld (conn (stored [("aa", Some "00003")]))
       (S (clock (stored [("aa", Some "00003")])))
       (log (stored [("aa", Some "00003")])
          ++ [EvFetch (shard_url "00003") (Found (lines ["aa"]));
              EvInsert [("aa", Some "00003")]])).
Proof.
  apply (known_first_hash_drops_the_shard catalog_3_4 "00003"
           (stored [("aa", Some "00003")]) (lines ["aa"])
           ("aa", Some "00003") [] 3); reflexivity.
Defined.

(** ** A first synchronisation *)

(** The loop over a stretch of published shards whose hashes are all
    new and distinct. *)
Lemma sync_loop_ingests remote bodies : forall n w fuel,
  (forall t j body, nth_error bodies j = Some body ->
     remote t (shard_url (Py.format_05d (n + Z.of_nat j))) = Found body) ->
  (forall t, exists code,
     remote t (shard_url (Py.format_05d (n + Z.of_nat (List.length bodies))))
     = HttpStatus code) ->
  NoDup (hashes (table (conn w) ++ ingest n bodies)) ->
  (List.length bodies < fuel)%nat ->
  exists w',
    sync_loop remote fuel (Py.format_05d n) w = (Ret tt, w')
    /\ table (conn w') = (table (conn w) ++ ingest n bodies)%list
    /\ (bodies <> [] -> committed (conn w') = table (conn w')).
Proof.
  induction bodies as [|body rest IH]; intros n w fuel Hfound Hend Hnd Hfuel.
  - destruct fuel as [|fuel]; [cbn in Hfuel; lia|].
    destruct (Hend (clock w)) as [code Hc].
    cbn [List.length] in Hc. rewrite Z.add_0_r in Hc.
    cbn [sync_loop]. unfold bind. rewrite sync_step_run. cbv zeta.
    rewrite Hc. eexists. split; [reflexivity|].
    cbn [conn ingest]. rewrite app_nil_r. split; [reflexivity|congruence].
  - destruct fuel as [|fuel]; [cbn in Hfuel; lia|].
    cbn [List.length] in Hfuel.
    pose proof (Hfound (clock w) O body eq_refl) as H0.
    rewrite Z.add_0_r in H0.
    cbn [sync_loop]. unfold bind. rewrite sync_step_run. cbv zeta.
    rewrite H0, int_format_05d.
    set (batch := shard_records body (Py.format_05d n)) in *.
    cbn [ingest] in Hnd. fold batch in Hnd.
    assert (Hclean : NoDup (hashes (table (conn w) ++ batch))).
    { rewrite app_assoc, hashes_app in Hnd. now apply NoDup_app_remove_r in Hnd. }
    assert (Hins : after_insert batch (conn w)
                   = mkConn (table (conn w) ++ batch) (table (conn w) ++ batch)).
    { unfold after_insert. now rewrite (executemany_clean _ _ Hclean). }
    rewrite Hins.
    set (w1 := mkWorld _ _ _).
    destruct (IH (n + 1) w1 fuel) as (w' & Hrun & Htab & Hcom).
    + intros t j b Hj. replace (n + 1 + Z.of_nat j) with (n + Z.of_nat (S j)) by lia.
      now apply Hfound.
    + intros t. destruct (Hend t) as [code Hc]. exists code.
      cbn [List.length] in Hc.
      now replace (n + 1 + Z.of_nat (List.length rest))
        with (n + Z.of_nat (S (List.length rest))) by lia.
    + subst w1. cbn [conn table]. now rewrite <- app_assoc.
    + lia.
    + exists w'. split; [exact Hrun|]. split.
      * rewrite Htab. subst w1. cbn [conn table ingest]. fold batch.
        now rewrite <- app_assoc.
      * intros _. destruct rest as [|b rest'].
        -- (* the next request ended the loop: the connection is that of w1 *)
           cbn [ingest] in Htab. rewrite app_nil_r in Htab.
           destruct fuel as [|fuel']; [lia|].
           destruct (Hend (clock w1)) as [code Hc].
           cbn [List.length] in Hc.
           replace (n + Z.of_nat 1) with (n + 1) in Hc by lia.
           cbn [sync_loop] in Hrun. unfold bind in Hrun.
           rewrite sync_step_run in Hrun. cbv zeta in Hrun.
           rewrite Hc in Hrun. injection Hrun as <-. reflexivity.
        -- apply Hcom. discriminate.
Qed.

(** A first run over published shards with distinct hashes. *)
Lemma first_run_ingests remote bodies fuel w :
  table (conn w) = [] ->
  (2 <= List.length bodies)%nat ->
  (forall t j body, nth_error bodies j = Some body ->
     remote t (shard_url (Py.format_05d (Z.of_nat j))) = Found body) ->
  (forall t, exists code,
     remote t (shard_url (Py.format_05d (Z.of_nat (List.length bodies))))
     = HttpStatus code) ->
  NoDup (hashes (ingest 0 bodies)) ->
  (List.length bodies < fuel)%nat ->
  exists w',
    update_db remote fuel w = (Ret tt, w')
    /\ table (conn w') = ingest 0 bodies
    /\ committed (conn w') = ingest 0 bodies.
Proof.
  intros Hempty Hlen Hfound Hend Hnd Hfuel.
  destruct bodies as [|b0 [|b1 rest]]; try (cbn in Hlen; lia).
  pose proof (Hfound (clock w) 1%nat b1 eq_refl) as Hprobe.
  rewrite update_db_run, download_files_run, db_is_updated_run. cbv zeta.
  rewrite Hempty. change (latest_file_nr []) with "00000".
  change (String.eqb "00000" "None") with false. cbv iota.
  change (Py.int "00000") with (Some 0). cbv iota beta.
  change (Py.format_05d (0 + 1)) with (Py.format_05d (Z.of_nat 1)).
  rewrite Hprobe. cbn [conn]. rewrite Hempty.
  change (latest_file_nr []) with (Py.format_05d 0).
  set (w1 := mkWorld _ _ _).
  destruct (sync_loop_ingests remote (b0 :: b1 :: rest) 0 w1 fuel)
    as (w' & Hrun & Htab & Hcom); auto.
  - subst w1. cbn [conn]. now rewrite Hempty.
  - exists w'. rewrite Hrun. split; [reflexivity|].
    subst w1. cbn [conn] in Htab. rewrite Hempty in Htab. cbn [app] in Htab.
    split; [exact Htab|]. rewrite Hcom by discriminate. exact Htab.
Qed.

(** Completeness of a first run.  On an empty table, when the catalog
    publishes the shards 00000 .. N-1 (two at least), answers the
    request for index N with an HTTP status, and all hashes of these
    shards are distinct, a run with fuel for N+1 turns returns normally
    and the table holds exactly the records of the shards, in order,
    all of them committed. *)
Theorem first_run_stores_every_shard remote bodies fuel w :
  table (conn w) = [] ->
  (2 <= List.length bodies)%nat ->
  (forall t j body, nth_error bodies j = Some body ->
     remote t (shard_url (Py.format_05d (Z.of_nat j))) = Found body) ->
  (forall t, exists code,
     remote t (shard_url (Py.format_05d (Z.of_nat (List.length bodies))))
     = HttpStatus code) ->
  NoDup (hashes (ingest 0 bodies)) ->
  (List.length bodies < fuel)%nat ->
  exists w',
    update_db remote fuel w = (Ret tt, w')
    /\ table (conn w') = ingest 0 bodies
    /\ committed (conn w') = ingest 0 bodies.
Proof. apply first_run_ingests. Qed.

Lemma first_run_stores_every_shard_witness :
  exists w',
    update_db catalog_clean 9 fresh_world = (Ret tt, w')
    /\ table (conn w')
       = [("h1", Some "00000"); ("h2", Some "00000"); ("h3", Some "00001")]
    /\ committed (conn w')
       = [("h1", Some "00000"); ("h2", Some "00000"); ("h3", Some "00001")].
Proof.
  apply (first_run_stores_every_shard catalog_clean
           [lines ["h1"; "h2"]; lines ["h3"]] 9 fresh_world).
  - reflexivity.
  - cbn. lia.
  - intros t [|[|j]] body H; cbn in H; try (now destruct j); injection H as <-;
      reflexivity.
  - intros t. exists 404. reflexivity.
  - repeat constructor; cbn; intuition discriminate.
  - cbn. lia.
Defined.

(** The first shard alone is never stored.  On an empty table the probe
    asks for 00001; when that index is answered with 404 the run ends as
    up to date after this one request, whether or not shard 00000 is
    published, and the table stays empty. *)
Theorem lone_first_shard_is_not_stored remote fuel w :
  table (conn w) = [] ->
  remote (clock w) (shard_url "00001") = HttpStatus 404 ->
  update_db remote fuel w
  = (Ret tt,
     mkWorld (conn w) (S (clock w))
       (log w ++ [EvFetch (shard_url "00001") (HttpStatus 404)])).
Proof.
  intros Hempty Hr.
  apply (idle_run remote fuel w 0).
  - now rewrite Hempty.
  - exact Hr.
Qed.

Lemma lone_first_shard_is_not_stored_witness :
  catalog_only_first 0%nat (shard_url "00000") = Found (lines ["h1"; "h2"])
  /\ update_db catalog_only_first 9 fresh_world
     = (Ret tt,
        mkWorld (conn fresh_world) (S (clock fresh_world))
          (log fresh_world ++ [EvFetch (shard_url "00001") (HttpStatus 404)])).
Proof.
  split; [reflexivity|].
  apply (lone_first_shard_is_not_stored catalog_only_first 9 fresh_world);
    reflexivity.
Defined.

(** ** A last line without line feed *)

Lemma lines_from_unterminated l : forall cur,
  forallb plain_byte l = true ->
  (rev cur ++ l)%list <> [] ->
  Py.lines_from cur l = [(rev cur ++ l)%list].
Proof.
  induction l as [|b l IH]; intros cur H Hne.
  - cbn [Py.lines_from]. rewrite app_nil_r in *.
    destruct cur as [|c cur]; [cbn in Hne; congruence|reflexivity].
  - cbn [forallb] in H. apply andb_true_iff in H as [Hb Hl].
    destruct (plain_byte_facts b Hb) as (_ & _ & Hnl & _).
    cbn [Py.lines_from]. rewrite Hnl.
    rewrite (IH (b :: cur) Hl); cbn [rev]; rewrite <- app_assoc; cbn [app].
    + reflexivity.
    + intros E. apply app_eq_nil in E as [_ E]. discriminate.
Qed.

Lemma repr_quote_plain_bytes l :
  forallb plain_byte l = true -> Py.repr_quote l = Py.squote.
Proof.
  intros H. unfold Py.repr_quote.
  assert (E : existsb (Py.byte_is Py.squote) l = false).
  { induction l as [|b l IH]; [reflexivity|].
    cbn [forallb] in H. apply andb_true_iff in H as [Hb Hl].
    destruct (plain_byte_facts b Hb) as (_ & Hq & _).
    cbn [existsb]. now rewrite Hq, IH. }
  now rewrite E.
Qed.

Lemma repr_content_plain_bytes l :
  forallb plain_byte l = true ->
  String.concat EmptyString (map (Py.repr_byte Py.squote) l) = text_of l.
Proof.
  induction l as [|b l IH]; intros H; [reflexivity|].
  cbn [forallb] in H. apply andb_true_iff in H as [Hb Hl].
  destruct (plain_byte_facts b Hb) as (Hr & _).
  cbn [map]. rewrite text_of_cons.
  destruct l as [|b' l'].
  - cbn [map String.concat]. now rewrite Hr.
  - rewrite concat_cons by discriminate. now rewrite Hr, (IH Hl).
Qed.

Lemma ascii_of_byte_inj a b : ascii_of_byte a = ascii_of_byte b -> a = b.
Proof.
  intros H. apply (f_equal byte_of_ascii) in H.
  now rewrite !byte_of_ascii_of_byte in H.
Qed.

Lemma remove_b_quote_unterminated l :
  forallb plain_byte l = true ->
  (forall l', l <> (l' ++ ["b"%byte])%list) ->
  Py.remove_from (String "b" (String Py.squote EmptyString)) 0
    (text_of l ++ String Py.squote EmptyString)
  = text_of l ++ String Py.squote EmptyString.
Proof.
  induction l as [|x t IH]; intros H Hend; [reflexivity|].
  cbn [forallb] in H. apply andb_true_iff in H as [Hx Ht].
  rewrite text_of_cons. cbn [String.append Py.remove_from].
  rewrite prefix_cons.
  assert (E : (if Ascii.eqb "b" (ascii_of_byte x)
               then String.prefix (String Py.squote EmptyString)
                      (text_of t ++ String Py.squote EmptyString)
               else false) = false).
  { destruct (Ascii.eqb_spec "b"%char (ascii_of_byte x)) as [Eb|_]; [|reflexivity].
    destruct t as [|y t'].
    - exfalso. apply (Hend []). cbn [app]. f_equal.
      apply ascii_of_byte_inj. now rewrite <- Eb.
    - cbn [forallb] in Ht. apply andb_true_iff in Ht as [Hy _].
      destruct (plain_byte_facts y Hy) as (_ & _ & _ & Hq & _).
      rewrite text_of_cons. cbn [String.append]. rewrite prefix_cons.
      now rewrite Ascii.eqb_sym, Hq. }
  rewrite E, IH; [reflexivity|assumption|].
  intros l' El. apply (Hend (x :: l')). cbn [app]. now rewrite El.
Qed.

Lemma remove_newline_quote_unterminated s :
  plain_text s = true ->
  Py.remove_from (String Py.backslash (String "n" (String Py.squote EmptyString))) 0
    (s ++ String Py.squote EmptyString)
  = s ++ String Py.squote EmptyString.
Proof.
  induction s as [|c t IH]; intros H; [reflexivity|].
  cbn [plain_text] in H. apply andb_true_iff in H as [Hc Ht].
  apply andb_true_iff in Hc as [_ Hs]. apply negb_true_iff in Hs.
  cbn [String.append Py.remove_from]. rewrite prefix_cons.
  rewrite Ascii.eqb_sym, Hs, (IH Ht). reflexivity.
Qed.

(** A shard that is one line of printable ASCII without apostrophe or
    backslash, not closed by a line feed, not a comment and not ending
    with the letter b, is stored with the closing quote of the printed
    form of the bytes at the end of the hash. *)
Theorem unterminated_line_keeps_the_quote l file_nr :
  forallb plain_byte l = true ->
  l <> [] ->
  (forall l', l <> (l' ++ ["b"%byte])%list) ->
  Py.startswith "#" (text_of l) = false ->
  shard_records l file_nr
  = [(text_of l ++ String Py.squote EmptyString, Some file_nr)].
Proof.
  intros Hp Hne Hend Hc.
  unfold shard_records, Py.readlines.
  rewrite (lines_from_unterminated l [] Hp) by exact Hne.
  cbn [rev app collect_hashes].
  assert (Ht : line_text l = text_of l ++ String Py.squote EmptyString).
  { unfold line_text, Py.str_of_bytes.
    rewrite (repr_quote_plain_bytes l Hp), (repr_content_plain_bytes l Hp).
    rewrite remove_prefix_after_b, (remove_b_quote_unterminated l Hp Hend).
    unfold Py.remove_all.
    apply remove_newline_quote_unterminated. now apply plain_text_of. }
  rewrite Ht.
  assert (Hs : Py.startswith "#" (text_of l ++ String Py.squote EmptyString) = false).
  { destruct l as [|x t]; [congruence|].
    rewrite text_of_cons in *. cbn [String.append]. unfold Py.startswith in *.
    rewrite prefix_cons in *. destruct (Ascii.eqb "#" (ascii_of_byte x));
      [|reflexivity].
    destruct (text_of t); cbn in Hc; discriminate. }
  now rewrite Hs.
Qed.

Lemma unterminated_line_keeps_the_quote_witness :
  shard_records (list_byte_of_string "d41d8cd9") "00000"
  = [(text_of (list_byte_of_string "d41d8cd9") ++ String Py.squote EmptyString,
      Some "00000")].
Proof.
  apply (unterminated_line_keeps_the_quote (list_byte_of_string "d41d8cd9") "00000").
  - reflexivity.
  - discriminate.
  - intros l' E. apply (f_equal (@rev byte)) in E.
    rewrite rev_app_distr in E. cbn in E. discriminate.
  - reflexivity.
Defined.

(** ** The width of a file number *)

Lemma five_digits_from_spec k : forall m i,
  five_digits_from m k = true ->
  m <= i < m + Z.of_nat k ->
  is_shard_index (Py.format_05d i) = true.
Proof.
  induction k as [|k IH]; intros m i H Hi; [lia|].
  cbn [five_digits_from] in H. apply andb_true_iff in H as [H0 H1].
  destruct (Z.eq_dec i m) as [->|Hne]; [assumption|].
  apply (IH (m + 1)); [assumption|lia].
Qed.

Lemma five_digits_upto_99999 : five_digits_from 0 (Z.to_nat 100000) = true.
Proof. vm_compute. reflexivity. Qed.

(** The format prints a number that is not negative as a shard index of
    five digits exactly when the number is at most 99999; from 100000 on
    the file number no longer has the five characters the column is
    declared with. *)
Theorem five_digit_file_numbers n :
  0 <= n ->
  (is_shard_index (Py.format_05d n) = true <-> n <= 99999).
Proof.
  intros Hn. split.
  - intros H. pose proof H as H'.
    unfold is_shard_index in H. apply andb_true_iff in H as [Hlen Hd].
    apply Nat.eqb_eq in Hlen.
    destruct (all_digits_value _ Hd) as (v & Hv & Hacc).
    destruct (shard_index_value _ H') as (u & Hu & Hdu & _).
    rewrite int_format_05d in Hu. injection Hu as <-.
    rewrite Hacc in Hdu. injection Hdu as Hdu.
    rewrite Hlen in Hv. change (10 ^ Z.of_nat 5) with 100000 in Hv. lia.
  - intros Hle.
    apply (five_digits_from_spec _ 0 n five_digits_upto_99999).
    rewrite Z2Nat.id; lia.
Qed.

Lemma five_digit_file_numbers_witness :
  (is_shard_index (Py.format_05d 99999) = true <-> 99999 <= 99999)
  /\ (is_shard_index (Py.format_05d 100000) = true <-> 100000 <= 99999).
Proof.
  split.
  - apply (five_digit_file_numbers 99999). lia.
  - apply (five_digit_file_numbers 100000). lia.
Defined.

(** ** The updater of main.py *)

Lemma format_is_shard_index n :
  0 <= n <= 99999 -> is_shard_index (Py.format_05d n) = true.
Proof.
  intros Hn. apply (five_digits_from_spec _ 0 n five_digits_upto_99999).
  rewrite Z2Nat.id; lia.
Qed.

Lemma format_leb a b :
  0 <= a -> a <= b -> b <= 99999 ->
  String.leb (Py.format_05d a) (Py.format_05d b) = true.
Proof.
  intros Ha Hab Hb.
  assert (Ia : is_shard_index (Py.format_05d a) = true)
    by (apply format_is_shard_index; lia).
  assert (Ib : is_shard_index (Py.format_05d b) = true)
    by (apply format_is_shard_index; lia).
  destruct (shard_index_value _ Ia) as (va & Ea & Da & _).
  destruct (shard_index_value _ Ib) as (vb & Eb & Db & _).
  rewrite int_format_05d in Ea, Eb. injection Ea as <-. injection Eb as <-.
  unfold is_shard_index in Ia, Ib.
  apply andb_true_iff in Ia as [La _]. apply andb_true_iff in Ib as [Lb _].
  apply Nat.eqb_eq in La, Lb.
  unfold String.leb.
  rewrite (compare_digit_strings _ _ a b) by congruence.
  destruct (Z.compare_spec a b); first [reflexivity | lia].
Qed.

Lemma ingest_rows bodies : forall n r,
  In r (ingest n bodies) ->
  exists j, (j < List.length bodies)%nat
            /\ file_nr_of r = Some (Py.format_05d (n + Z.of_nat j)).
Proof.
  induction bodies as [|body rest IH]; intros n r Hin; [contradiction|].
  cbn [ingest] in Hin. apply in_app_or in Hin as [Hin|Hin].
  - exists O. cbn [List.length]. split; [lia|].
    apply collect_hashes_file_nr in Hin as [-> _].
    now rewrite Z.add_0_r.
  - apply IH in Hin as (j & Hj & Hr). exists (S j). cbn [List.length].
    split; [lia|]. rewrite Hr. do 2 f_equal. lia.
Qed.

Lemma ingest_app a b : forall n,
  ingest n (a ++ b)
  = (ingest n a ++ ingest (n + Z.of_nat (List.length a)) b)%list.
Proof.
  induction a as [|x a IH]; intros n.
  - cbn. now rewrite Z.add_0_r.
  - cbn [app ingest List.length]. rewrite IH, <- app_assoc.
    do 3 f_equal. lia.
Qed.

(** The cursor after a first run whose last shard holds a record. *)
Lemma ingest_latest init last_body :
  Z.of_nat (List.length init) < 100000 ->
  shard_records last_body (Py.format_05d (Z.of_nat (List.length init))) <> [] ->
  latest_file_nr (ingest 0 (init ++ [last_body]))
  = Py.format_05d (Z.of_nat (List.length init)).
Proof.
  intros Hlen Hne. apply latest_of_greatest.
  - rewrite ingest_app. cbn [ingest]. rewrite app_nil_r, map_app.
    apply in_or_app. right. cbn [Z.add].
    destruct (shard_records last_body _) as [|r rest] eqn:E; [congruence|].
    assert (Hr : In r (shard_records last_body
                         (Py.format_05d (Z.of_nat (List.length init)))))
      by (rewrite E; now left).
    apply collect_hashes_file_nr in Hr as [Hr _].
    cbn [map]. left. exact Hr.
  - intros r Hr. apply ingest_rows in Hr as (j & Hj & ->).
    rewrite length_app in Hj. cbn [List.length] in Hj.
    cbn [value_leb]. apply format_leb; lia.
Qed.

(** [updater()] on an empty database.  When the catalog publishes the
    shards 00000 .. N-1 (between two and 100000 of them) with distinct
    hashes, the last one holding a record, and answers 404 for index N:
    the constructor returns with every record stored and committed; the
    [update_db] that follows makes the one request for index N, inserts
    nothing and leaves the connection as it was; [updater] returns
    normally in that world; and [count_hashes] there, the text that
    [updater] prints, is the number of records. *)
Theorem updater_on_empty_database remote init last_body fuel clk lg :
  1 <= Z.of_nat (List.length init) < 100000 ->
  (forall t j body, nth_error (init ++ [last_body]) j = Some body ->
     remote t (shard_url (Py.format_05d (Z.of_nat j))) = Found body) ->
  (forall t,
     remote t (shard_url (Py.format_05d (Z.of_nat (List.length init) + 1)))
     = HttpStatus 404) ->
  NoDup (hashes (ingest 0 (init ++ [last_body]))) ->
  shard_records last_body (Py.format_05d (Z.of_nat (List.length init))) <> [] ->
  (S (List.length init) < fuel)%nat ->
  exists w1 w2,
    hash_api_init remote fuel (mkWorld empty_db clk lg) = (Ret tt, w1)
    /\ table (conn w1) = ingest 0 (init ++ [last_body])
    /\ committed (conn w1) = ingest 0 (init ++ [last_body])
    /\ update_db remote fuel w1 = (Ret tt, w2)
    /\ conn w2 = conn w1
    /\ inserted_batches (run_events w1 w2) = []
    /\ fetched_urls (run_events w1 w2)
       = [shard_url (Py.format_05d (Z.of_nat (List.length init) + 1))]
    /\ updater remote fuel (mkWorld empty_db clk lg) = (Ret tt, w2)
    /\ count_hashes w2
       = (Ret (Py.digits
                 (Z.of_nat (List.length (ingest 0 (init ++ [last_body]))))), w2).
Proof.
  intros Hlen Hfound Hend Hnd Hlast Hfuel.
  assert (Hn : List.length (init ++ [last_body]) = S (List.length init))
    by (rewrite length_app; cbn; lia).
  destruct (first_run_ingests remote (init ++ [last_body]) fuel
              (mkWorld empty_db clk lg))
    as (w1 & Hrun & Htab & Hcom); auto.
  - rewrite Hn. lia.
  - intros t. exists 404. rewrite Hn.
    replace (Z.of_nat (S (List.length init)))
      with (Z.of_nat (List.length init) + 1) by lia.
    apply Hend.
  - rewrite Hn. exact Hfuel.
  - assert (Hcur : latest_file_nr (table (conn w1))
                   = Py.format_05d (Z.of_nat (List.length init))).
    { rewrite Htab. apply ingest_latest; [lia|assumption]. }
    assert (Hidle := idle_run remote fuel w1 (Z.of_nat (List.length init))).
    rewrite Hcur, int_format_05d in Hidle.
    specialize (Hidle eq_refl (Hend (clock w1))).
    assert (Hinit : hash_api_init remote fuel (mkWorld empty_db clk lg)
                    = (Ret tt, w1)).
    { unfold hash_api_init, bind at 1.
      unfold init_table, bind at 1, get_conn, set_conn, commit.
      cbn [conn table empty_db clock log].
      change (mkConn [] []) with empty_db. exact Hrun. }
    exists w1. eexists.
    split; [exact Hinit|]. split; [exact Htab|]. split; [exact Hcom|].
    split; [exact Hidle|]. cbn [conn]. split; [reflexivity|].
    rewrite (run_events_app _ _
               [EvFetch (shard_url (Py.format_05d (Z.of_nat (List.length init) + 1)))
                  (HttpStatus 404)]) by reflexivity.
    split; [reflexivity|]. split; [reflexivity|]. split.
    + unfold updater, bind at 1. rewrite Hinit.
      unfold bind at 1. rewrite Hidle. reflexivity.
    + unfold count_hashes, bind, get_conn, ret. cbn [conn].
      rewrite Htab. reflexivity.
Qed.

Lemma updater_on_empty_database_witness :
  exists w1 w2,
    hash_api_init catalog_clean 9 (mkWorld empty_db 0 []) = (Ret tt, w1)
    /\ table (conn w1) = ingest 0 ([lines ["h1"; "h2"]] ++ [lines ["h3"]])
    /\ committed (conn w1) = ingest 0 ([lines ["h1"; "h2"]] ++ [lines ["h3"]])
    /\ update_db catalog_clean 9 w1 = (Ret tt, w2)
    /\ conn w2 = conn w1
    /\ inserted_batches (run_events w1 w2) = []
    /\ fetched_urls (run_events w1 w2)
       = [shard_url
            (Py.format_05d (Z.of_nat (List.length [lines ["h1"; "h2"]]) + 1))]
    /\ updater catalog_clean 9 (mkWorld empty_db 0 []) = (Ret tt, w2)
    /\ count_hashes w2
       = (Ret (Py.digits
                 (Z.of_nat
                    (List.length
                       (ingest 0 ([lines ["h1"; "h2"]] ++ [lines ["h3"]]))))), w2).
Proof.
  apply (updater_on_empty_database catalog_clean
           [lines ["h1"; "h2"]] (lines ["h3"]) 9 0%nat []).
  - cbn. lia.
  - intros t [|[|j]] body H; cbn in H; try (now destruct j); injection H as <-;
      reflexivity.
  - intros t. reflexivity.
  - repeat constructor; cbn; intuition discriminate.
  - discriminate.
  - cbn. lia.
Defined.
